(** * Flipkart web scraper: fetch / extract / persist pipeline

    A shallow embedding of the two variants of the scraper:
    - [WebScraper] : the enhanced variant, [advanced_scraper.py];
    - [WebScrapper] : the minimal variant, [Web Scrapper.py].

    Python values are modelled as follows.
    - [str] is a sequence of Unicode code points: [pystr := list N].
    - [int] is [Z].
    - A function that can raise is a computation in the monad [M], which
      threads the observable [world] (log, sleeps, requests, files, clock)
      and ends in [Returned v] or [Raised e].
    - The libraries the program calls (requests, bs4, csv, json, time,
      datetime, open) are modelled after their documented behaviour; what
      the outside world decides (the network, the disk, the clock, the HTML
      parser) is an oracle in [env]. *)

From Stdlib Require Import ZArith NArith String Ascii List Lia Bool.
From stdpp Require Import base option list strings gmap.

Local Open Scope Z_scope.
Set Warnings "-register-all".

(** ** Python strings *)

Module Py.

Abbreviation pystr := (list N).

(** A string literal: the code points of an ASCII literal. *)
Definition py (s : string) : pystr :=
  map N_of_ascii (list_ascii_of_string s).

(** [str.isspace] on one character, the set CPython's
    [_PyUnicode_IsWhitespace] accepts. *)
Definition isspace (c : N) : bool :=
  ((9 <=? c) && (c <=? 13) || (28 <=? c) && (c <=? 32)
   || (c =? 133) || (c =? 160) || (c =? 5760)
   || (8192 <=? c) && (c <=? 8202)
   || (c =? 8232) || (c =? 8233) || (c =? 8239) || (c =? 8287)
   || (c =? 12288))%N.

Fixpoint lstrip (s : pystr) : pystr :=
  match s with
  | [] => []
  | c :: s' => if isspace c then lstrip s' else s
  end.

Definition rstrip (s : pystr) : pystr := rev (lstrip (rev s)).

(** [s.strip()] *)
Definition strip (s : pystr) : pystr := rstrip (lstrip s).

(** [s.replace(a, b)] for one-character [a] and [b]. *)
Definition replace (a b : N) (s : pystr) : pystr :=
  map (fun c => if (c =? a)%N then b else c) s.

(** [s.lower()] restricted to the ASCII letters; no other character
    lowers to one of the letters of "json". *)
Definition lower (s : pystr) : pystr :=
  map (fun c => if ((65 <=? c) && (c <=? 90))%N then (c + 32)%N else c) s.

(** [sep.join(l)] *)
Fixpoint join (sep : pystr) (l : list pystr) : pystr :=
  match l with
  | [] => []
  | [x] => x
  | x :: l' => x ++ sep ++ join sep l'
  end.

(** [re.findall(r"\S+", s)]: the maximal runs of non-whitespace. [cur] is
    the run being read, reversed. *)
Fixpoint tokens_from (cur : pystr) (s : pystr) : list pystr :=
  match s with
  | [] => match cur with [] => [] | _ => [rev cur] end
  | c :: s' =>
      if isspace c
      then match cur with
           | [] => tokens_from [] s'
           | _ => rev cur :: tokens_from [] s'
           end
      else tokens_from (c :: cur) s'
  end.

Definition tokens (s : pystr) : list pystr := tokens_from [] s.

(** ** Exceptions *)

(** The subclasses of [requests.RequestException] a GET can raise. *)
Inductive request_error :=
| ConnectionError
| Timeout
| TooManyRedirects
| InvalidURL.

Inductive exn :=
| RequestException (e : request_error)
| HTTPError (status : Z)          (* raised by [raise_for_status] *)
| AttributeError                  (* attribute access on [None] *)
| ValueError                      (* [time.sleep] of a negative length *)
| OSError.                        (* [open] or a write failed *)

(** [isinstance(e, requests.RequestException)]; [HTTPError] is a subclass. *)
Definition is_RequestException (e : exn) : bool :=
  match e with
  | RequestException _ | HTTPError _ => true
  | _ => false
  end.

(** [isinstance(e, Exception)]: every exception of the model. *)
Definition is_Exception (e : exn) : bool := true.

(** ** Time *)

(** A [datetime] value, as [datetime.now()] returns it. *)
Record datetime := {
  year : N; month : N; day : N;
  hour : N; minute : N; second : N;
  microsecond : N
}.

Definition digit (d : N) : N := (48 + d)%N.

Definition pad2 (n : N) : pystr :=
  [digit (n / 10 mod 10); digit (n mod 10)]%N.

Definition pad4 (n : N) : pystr :=
  [digit (n / 1000 mod 10); digit (n / 100 mod 10);
   digit (n / 10 mod 10); digit (n mod 10)]%N.

(** [d.strftime('%Y-%m-%d %H:%M:%S')] *)
Definition strftime_record (d : datetime) : pystr :=
  pad4 (year d) ++ py "-" ++ pad2 (month d) ++ py "-" ++ pad2 (day d)
  ++ py " " ++ pad2 (hour d) ++ py ":" ++ pad2 (minute d) ++ py ":"
  ++ pad2 (second d).

(** [d.strftime('%Y%m%d_%H%M%S')] *)
Definition strftime_file (d : datetime) : pystr :=
  pad4 (year d) ++ pad2 (month d) ++ pad2 (day d) ++ py "_"
  ++ pad2 (hour d) ++ pad2 (minute d) ++ pad2 (second d).

(** The values a [datetime] can hold ([MINYEAR] to [MAXYEAR], and so on). *)
Definition valid_datetime (d : datetime) : Prop :=
  (1 <= year d <= 9999 /\ 1 <= month d <= 12 /\ 1 <= day d <= 31
   /\ hour d < 24 /\ minute d < 60 /\ second d < 60
   /\ microsecond d < 1000000)%N.

End Py.

(** ** The document tree of bs4 *)

Module Soup.
Import Py.

(** A page element. [NavigableString] is text; [Comment] stands for the
    strings [.text] leaves out (comments, declarations); [Tag] carries its
    name, its attributes as written in the markup, and its children. *)
Inductive node :=
| NavigableString (s : pystr)
| Comment (s : pystr)
| Tag (name : pystr) (attrs : gmap pystr pystr) (contents : list node).

(** [tag.text]: the text strings below the element, concatenated in
    document order. *)
Fixpoint text (n : node) : pystr :=
  match n with
  | NavigableString s => s
  | Comment _ => []
  | Tag _ _ cs => concat (map text cs)
  end.

(** [tag.descendants]: every element below [n], in document order. *)
Fixpoint descendants (n : node) : list node :=
  match n with
  | Tag _ _ cs => concat (map (fun c => c :: descendants c) cs)
  | _ => []
  end.

(** bs4 splits the [class] attribute on whitespace; a search string matches
    when it equals one of the classes, or the whole list joined by spaces. *)
Definition class_matches (value : option pystr) (cls : pystr) : bool :=
  match value with
  | None => false
  | Some v =>
      let classes := tokens v in
      existsb (fun c => bool_decide (c = cls)) classes
      || bool_decide (join (py " ") classes = cls)
  end.

(** Does [n] match [find(name, class_=cls)]? *)
Definition matches (name cls : pystr) (n : node) : bool :=
  match n with
  | Tag nm attrs _ =>
      bool_decide (nm = name) && class_matches (attrs !! py "class") cls
  | _ => false
  end.

(** [n.find_all(name, class_=cls)] *)
Definition find_all (n : node) (name cls : pystr) : list node :=
  List.filter (matches name cls) (descendants n).

(** [n.find(name, class_=cls)]: the first result of [find_all], or [None]. *)
Definition find (n : node) (name cls : pystr) : option node :=
  head (find_all n name cls).

(** [elem.attrs] *)
Definition attrs_of (n : node) : gmap pystr pystr :=
  match n with
  | Tag _ a _ => a
  | _ => ∅
  end.

End Soup.

(** ** The world the scraper runs in *)

Module IO.
Import Py Soup.

Inductive level := DEBUG | INFO | WARNING | ERROR.

(** The messages the two programs log or print, with their arguments. *)
Inductive message :=
| Fetching_URL (attempt max_retries : Z) (url : pystr)
| Error_fetching_URL (e : exn)
| Retrying_in (wait_time : Z)
| Failed_to_fetch_URL_after (max_retries : Z)
| Found_product_containers (n : nat)
| Extracted_product (idx : nat) (name : pystr)
| Error_extracting_product (idx : nat) (e : exn)
| No_products_to_save
| Successfully_saved (n : nat) (filename : pystr)
| Error_saving_to_CSV (e : exn)
| Error_saving_to_JSON (e : exn)
| Starting_scrape (search_query : pystr)
| Failed_to_fetch_HTML_content
| No_products_found
| Scraping_completed (n : nat)
| Fetching_data_from_Flipkart
| Extracting_product_details
| Found_products_Saving_to_CSV (n : nat)
| No_products_found_to_save
| Data_saved_to (filename : pystr)
| Error_saving_data.

(** [requests.Response], the two members the programs read. *)
Record response := { status_code : Z; response_text : pystr }.

(** What a GET comes to: an exception of requests, or a response. *)
Inductive get_outcome :=
| GetRaises (e : request_error)
| GetResponse (r : response).

(** What the disk does with a file opened for writing: all is written,
    [open] fails (the file is left as it was), or [open] succeeds (the file
    is created or truncated) and writing fails. *)
Inductive io_outcome := IoOk | OpenFails | WriteFails.

(** The oracles: the outcome of the [k]-th GET of the run, the value of the
    [k]-th reading of the clock, the fate of a file opened for writing, and
    [BeautifulSoup(html, 'html.parser')]. *)
Record env := {
  net : nat -> pystr -> get_outcome;
  now : nat -> datetime;
  disk : pystr -> io_outcome;
  html_parser : pystr -> node
}.

(** Everything a run leaves behind. *)
Record world := {
  logged : list (level * message);   (* logger calls, oldest first *)
  printed : list message;            (* print calls, oldest first *)
  slept : list Z;                    (* arguments of time.sleep, in order *)
  requested : list pystr;            (* URLs of the GETs made, in order *)
  files : gmap pystr pystr;          (* the file system: name to content *)
  clock_reads : nat                  (* calls of datetime.now() so far *)
}.

Definition set_logged (f : list (level * message) -> list (level * message))
    (w : world) : world :=
  {| logged := f (logged w); printed := printed w; slept := slept w;
     requested := requested w; files := files w;
     clock_reads := clock_reads w |}.

Definition set_printed (f : list message -> list message) (w : world) : world :=
  {| logged := logged w; printed := f (printed w); slept := slept w;
     requested := requested w; files := files w;
     clock_reads := clock_reads w |}.

Definition set_slept (f : list Z -> list Z) (w : world) : world :=
  {| logged := logged w; printed := printed w; slept := f (slept w);
     requested := requested w; files := files w;
     clock_reads := clock_reads w |}.

Definition set_requested (f : list pystr -> list pystr) (w : world) : world :=
  {| logged := logged w; printed := printed w; slept := slept w;
     requested := f (requested w); files := files w;
     clock_reads := clock_reads w |}.

Definition set_files (f : gmap pystr pystr -> gmap pystr pystr)
    (w : world) : world :=
  {| logged := logged w; printed := printed w; slept := slept w;
     requested := requested w; files := f (files w);
     clock_reads := clock_reads w |}.

Definition set_clock_reads (f : nat -> nat) (w : world) : world :=
  {| logged := logged w; printed := printed w; slept := slept w;
     requested := requested w; files := files w;
     clock_reads := f (clock_reads w) |}.

Definition empty_world : world :=
  {| logged := []; printed := []; slept := []; requested := [];
     files := ∅; clock_reads := 0 |}.

(** *** The monad of Python computations *)

Inductive result (A : Type) :=
| Returned (a : A)
| Raised (e : exn).
Arguments Returned {A} a.
Arguments Raised {A} e.

Definition M (A : Type) : Type := world -> result A * world.

Definition ret {A} (a : A) : M A := fun w => (Returned a, w).

Definition bind {A B} (m : M A) (k : A -> M B) : M B :=
  fun w =>
    match m w with
    | (Returned a, w') => k a w'
    | (Raised e, w') => (Raised e, w')
    end.

Definition raise {A} (e : exn) : M A := fun w => (Raised e, w).

(** [try: body  except <catches> as e: handler e] *)
Definition try_except {A} (body : M A) (catches : exn -> bool)
    (handler : exn -> M A) : M A :=
  fun w =>
    match body w with
    | (Raised e, w') => if catches e then handler e w' else (Raised e, w')
    | r => r
    end.

Notation "'let*' x := m 'in' k" := (bind m (fun x => k))
  (at level 10, x name, m at level 100, k at level 200).
Notation "m >> k" := (bind m (fun _ => k))
  (at level 90, right associativity).

(** [self.logger.<level>(msg)] *)
Definition log (l : level) (msg : message) : M unit :=
  fun w => (Returned tt, set_logged (fun ls => ls ++ [(l, msg)]) w).

(** [print(msg)] *)
Definition print (msg : message) : M unit :=
  fun w => (Returned tt, set_printed (fun ls => ls ++ [msg]) w).

(** [time.sleep(secs)]: a negative length is a [ValueError]. *)
Definition sleep (secs : Z) : M unit :=
  fun w =>
    if secs <? 0 then (Raised ValueError, w)
    else (Returned tt, set_slept (fun ls => ls ++ [secs]) w).

(** [requests.get(url, ...)] and [session.get(url, ...)]: the next GET. *)
Definition get (E : env) (url : pystr) : M response :=
  fun w =>
    let w' := set_requested (fun ls => ls ++ [url]) w in
    match net E (length (requested w)) url with
    | GetRaises e => (Raised (RequestException e), w')
    | GetResponse r => (Returned r, w')
    end.

(** The statuses [raise_for_status] rejects: 4xx and 5xx. *)
Definition is_error_status (code : Z) : bool :=
  (400 <=? code) && (code <? 600).

(** [response.raise_for_status()] *)
Definition raise_for_status (r : response) : M unit :=
  if is_error_status (status_code r)
  then raise (HTTPError (status_code r))
  else ret tt.

(** [datetime.now()] *)
Definition datetime_now (E : env) : M datetime :=
  fun w => (Returned (now E (clock_reads w)), set_clock_reads S w).

(** [open(filename, 'w', ...)]: creates or truncates the file. *)
Definition open_w (E : env) (filename : pystr) : M unit :=
  fun w =>
    match disk E filename with
    | OpenFails => (Raised OSError, w)
    | _ => (Returned tt, set_files (fun fs => <[filename := []]> fs) w)
    end.

(** [file.write(data)] on the file opened as [filename]. *)
Definition write (E : env) (filename : pystr) (data : pystr) : M unit :=
  fun w =>
    match disk E filename with
    | IoOk =>
        (Returned tt,
         set_files (fun fs => <[filename := default [] (fs !! filename) ++ data]> fs) w)
    | _ => (Raised OSError, w)
    end.

End IO.

(** ** The output formats: what csv.writer and json.dump produce *)

Module Codec.
Import Py.

(** *** CSV, the default ("excel") dialect *)

Definition COMMA : N := 44.
Definition QUOTE : N := 34.
Definition CR : N := 13.
Definition LF : N := 10.
Definition BACKSLASH : N := 92.

(** A character that forces the field to be quoted: the delimiter, the
    quote character, or a character of the line terminator. *)
Definition csv_special (c : N) : bool :=
  ((c =? COMMA) || (c =? QUOTE) || (c =? CR) || (c =? LF))%N.

(** The characters of a field, the quote character doubled. *)
Fixpoint csv_double (s : pystr) : pystr :=
  match s with
  | [] => []
  | c :: s' => if (c =? QUOTE)%N then QUOTE :: QUOTE :: csv_double s'
               else c :: csv_double s'
  end.

(** One field under [QUOTE_MINIMAL]. *)
Definition csv_field (s : pystr) : pystr :=
  if existsb csv_special s then QUOTE :: csv_double s ++ [QUOTE] else s.

(** [writer.writerow(fields)]: the text of one row. A row of one empty
    field is written as a pair of quotes. *)
Definition csv_row (fields : list pystr) : pystr :=
  match fields with
  | [[]] => [QUOTE; QUOTE; CR; LF]
  | _ => join [COMMA] (map csv_field fields) ++ [CR; LF]
  end.

(** *** JSON, [indent=2, ensure_ascii=False] *)

Definition hex_digit (d : N) : N :=
  (if d <? 10 then 48 + d else 87 + d)%N.

(** The escape of one character, as [json.encoder.ESCAPE_DCT] has it:
    the quote, the backslash and the characters below U+0020. *)
Definition json_escape (c : N) : pystr :=
  (if c =? QUOTE then [BACKSLASH; QUOTE]
   else if c =? BACKSLASH then [BACKSLASH; BACKSLASH]
   else if c =? 8 then [BACKSLASH; 98]
   else if c =? 12 then [BACKSLASH; 102]
   else if c =? 10 then [BACKSLASH; 110]
   else if c =? 13 then [BACKSLASH; 114]
   else if c =? 9 then [BACKSLASH; 116]
   else if c <? 32 then
     [BACKSLASH; 117; 48; 48; hex_digit (c / 16); hex_digit (c mod 16)]
   else [c])%N.

(** [json.encoder.py_encode_basestring] *)
Definition json_string (s : pystr) : pystr :=
  QUOTE :: concat (map json_escape s) ++ [QUOTE].

(** One [key: value] member. *)
Definition json_member (kv : pystr * pystr) : pystr :=
  json_string (fst kv) ++ py ": " ++ json_string (snd kv).

(** A dict at nesting depth 1 of an indented list. *)
Definition json_object (members : list (pystr * pystr)) : pystr :=
  match members with
  | [] => py "{}"
  | _ =>
      py "{" ++ [LF] ++ py "    "
      ++ join (py "," ++ [LF] ++ py "    ") (map json_member members)
      ++ [LF] ++ py "  " ++ py "}"
  end.

(** [json.dumps(list_of_dicts, indent=2, ensure_ascii=False)] *)
Definition json_dumps (objects : list (list (pystr * pystr))) : pystr :=
  match objects with
  | [] => py "[]"
  | _ =>
      py "[" ++ [LF] ++ py "  "
      ++ join (py "," ++ [LF] ++ py "  ") (map json_object objects)
      ++ [LF] ++ py "]"
  end.

(** *** Reading JSON back: [json.loads]

    The decoder of the json module, for the documents [save_to_json]
    writes: a list of objects whose values are strings. A value of another
    kind is outside the model ([None]). An object is read as its members
    in document order. *)

Definition COLON : N := 58.
Definition LBRACE : N := 123.
Definition RBRACE : N := 125.
Definition LBRACKET : N := 91.
Definition RBRACKET : N := 93.

(** The whitespace the decoder skips. *)
Definition json_ws (c : N) : bool :=
  ((c =? 32) || (c =? 9) || (c =? 10) || (c =? 13))%N.

Fixpoint skip_ws (s : pystr) : pystr :=
  match s with
  | [] => []
  | c :: s' => if json_ws c then skip_ws s' else s
  end.

Definition hex_value (c : N) : option N :=
  (if (48 <=? c) && (c <=? 57) then Some (c - 48)
   else if (97 <=? c) && (c <=? 102) then Some (c - 87)
   else if (65 <=? c) && (c <=? 70) then Some (c - 55)
   else None)%N.

(** The character of [\uXXXX]. *)
Definition hex4 (a b c d : N) : option N :=
  match hex_value a, hex_value b, hex_value c, hex_value d with
  | Some x, Some y, Some z, Some t => Some (((x * 16 + y) * 16 + z) * 16 + t)%N
  | _, _, _, _ => None
  end.

(** [json.decoder.BACKSLASH]: the character after a backslash. *)
Definition unescape (c : N) : option N :=
  (if c =? 34 then Some 34
   else if c =? 92 then Some 92
   else if c =? 47 then Some 47
   else if c =? 98 then Some 8
   else if c =? 102 then Some 12
   else if c =? 110 then Some 10
   else if c =? 114 then Some 13
   else if c =? 116 then Some 9
   else None)%N.

(** [json.decoder.py_scanstring], after the opening quote: the string read
    and the text after its closing quote. A control character is an error
    (strict mode). *)
Fixpoint scanstring (s acc : pystr) : option (pystr * pystr) :=
  match s with
  | [] => None
  | c :: rest =>
      if (c =? QUOTE)%N then Some (acc, rest)
      else if (c =? BACKSLASH)%N then
        match rest with
        | [] => None
        | esc :: rest1 =>
            if (esc =? 117)%N then
              match rest1 with
              | a :: b :: c' :: d :: rest2 =>
                  match hex4 a b c' d with
                  | Some v => scanstring rest2 (acc ++ [v])
                  | None => None
                  end
              | _ => None
              end
            else
              match unescape esc with
              | Some v => scanstring rest1 (acc ++ [v])
              | None => None
              end
        end
      else if (c <? 32)%N then None
      else scanstring rest (acc ++ [c])
  end.

(** A string, opening quote included. *)
Definition parse_string (s : pystr) : option (pystr * pystr) :=
  match s with
  | c :: rest => if (c =? QUOTE)%N then scanstring rest [] else None
  | [] => None
  end.

(** The members of an object from its first key on, up to the closing
    brace. [fuel] bounds the number of members. *)
Fixpoint parse_members (fuel : nat) (s : pystr) (acc : list (pystr * pystr))
    : option (list (pystr * pystr) * pystr) :=
  match fuel with
  | O => None
  | S fuel' =>
      match parse_string s with
      | None => None
      | Some (key, s1) =>
          match skip_ws s1 with
          | [] => None
          | c :: s2 =>
              if negb (c =? COLON)%N then None
              else
                match parse_string (skip_ws s2) with
                | None => None
                | Some (value, s3) =>
                    match skip_ws s3 with
                    | [] => None
                    | c' :: s4 =>
                        if (c' =? RBRACE)%N
                        then Some (acc ++ [(key, value)], s4)
                        else if (c' =? COMMA)%N
                        then parse_members fuel' (skip_ws s4)
                               (acc ++ [(key, value)])
                        else None
                    end
                end
          end
      end
  end.

(** [json.decoder.JSONObject] *)
Definition parse_object (s : pystr) : option (list (pystr * pystr) * pystr) :=
  match s with
  | [] => None
  | c :: s1 =>
      if negb (c =? LBRACE)%N then None
      else
        match skip_ws s1 with
        | [] => None
        | c' :: s2 =>
            if (c' =? RBRACE)%N then Some ([], s2)
            else parse_members (length s) (c' :: s2) []
        end
  end.

(** The elements of a list from its first element on, up to the closing
    bracket. [fuel] bounds the number of elements. *)
Fixpoint parse_elements (fuel : nat) (s : pystr)
    (acc : list (list (pystr * pystr)))
    : option (list (list (pystr * pystr)) * pystr) :=
  match fuel with
  | O => None
  | S fuel' =>
      match parse_object s with
      | None => None
      | Some (object, s1) =>
          match skip_ws s1 with
          | [] => None
          | c :: s2 =>
              if (c =? RBRACKET)%N then Some (acc ++ [object], s2)
              else if (c =? COMMA)%N
              then parse_elements fuel' (skip_ws s2) (acc ++ [object])
              else None
          end
      end
  end.

(** [json.loads(s)], for a list of objects of strings. Text after the
    list, other than whitespace, is an error. *)
Definition json_loads (s : pystr) : option (list (list (pystr * pystr))) :=
  match skip_ws s with
  | [] => None
  | c :: s1 =>
      if negb (c =? LBRACKET)%N then None
      else
        match skip_ws s1 with
        | [] => None
        | c' :: s2 =>
            let parsed :=
              if (c' =? RBRACKET)%N then Some ([], s2)
              else parse_elements (length s) (c' :: s2) [] in
            match parsed with
            | Some (objects, rest) =>
                match skip_ws rest with
                | [] => Some objects
                | _ => None
                end
            | None => None
            end
        end
  end.

(** *** Reading CSV back: [csv.reader] and [csv.DictReader]

    The state machine of the reader of the csv module, for the default
    dialect (no escape character, doubled quotes, not strict), fed the
    text of a file opened with [newline='']. *)

Inductive parser_state :=
| START_RECORD
| START_FIELD
| IN_FIELD
| IN_QUOTED_FIELD
| QUOTE_IN_QUOTED_FIELD
| EAT_CRNL.

(** The reader: its state, the field and the record being read, and the
    records read so far. *)
Record reader := {
  state : parser_state;
  field : pystr;
  fields : list pystr;
  records : list (list pystr)
}.

Definition with_state (st : parser_state) (r : reader) : reader :=
  {| state := st; field := field r; fields := fields r;
     records := records r |}.

(** [parse_add_char] *)
Definition add_char (c : N) (r : reader) : reader :=
  {| state := state r; field := field r ++ [c]; fields := fields r;
     records := records r |}.

(** [parse_save_field] *)
Definition save_field (r : reader) : reader :=
  {| state := state r; field := []; fields := fields r ++ [field r];
     records := records r |}.

(** What the reader is fed: a character of a line, or the end of the
    line. *)
Inductive input := Char (c : N) | EOL.

Definition is_newline (c : input) : bool :=
  match c with
  | EOL => true
  | Char ch => ((ch =? LF) || (ch =? CR))%N
  end.

Definition is_EOL (c : input) : bool :=
  match c with EOL => true | Char _ => false end.

Definition is_char (ch : N) (c : input) : bool :=
  match c with EOL => false | Char c' => (c' =? ch)%N end.

(** The case [START_FIELD] of [parse_process_char]. *)
Definition start_field (r : reader) (c : input) : option reader :=
  if is_newline c then
    Some (with_state (if is_EOL c then START_RECORD else EAT_CRNL)
            (save_field r))
  else if is_char QUOTE c then Some (with_state IN_QUOTED_FIELD r)
  else if is_char COMMA c then Some (save_field r)
  else
    match c with
    | Char ch => Some (with_state IN_FIELD (add_char ch r))
    | EOL => None
    end.

(** [parse_process_char]; [None] is the error of the reader. *)
Definition process_char (r : reader) (c : input) : option reader :=
  match state r with
  | START_RECORD =>
      if is_EOL c then Some r
      else if is_newline c then Some (with_state EAT_CRNL r)
      else start_field (with_state START_FIELD r) c
  | START_FIELD => start_field r c
  | IN_FIELD =>
      if is_newline c then
        Some (with_state (if is_EOL c then START_RECORD else EAT_CRNL)
                (save_field r))
      else if is_char COMMA c then Some (with_state START_FIELD (save_field r))
      else
        match c with
        | Char ch => Some (add_char ch r)
        | EOL => None
        end
  | IN_QUOTED_FIELD =>
      match c with
      | EOL => Some r
      | Char ch =>
          if (ch =? QUOTE)%N then Some (with_state QUOTE_IN_QUOTED_FIELD r)
          else Some (add_char ch r)
      end
  | QUOTE_IN_QUOTED_FIELD =>
      if is_char QUOTE c then Some (with_state IN_QUOTED_FIELD (add_char QUOTE r))
      else if is_char COMMA c then Some (with_state START_FIELD (save_field r))
      else if is_newline c then
        Some (with_state (if is_EOL c then START_RECORD else EAT_CRNL)
                (save_field r))
      else
        match c with
        | Char ch => Some (with_state IN_FIELD (add_char ch r))
        | EOL => None
        end
  | EAT_CRNL =>
      if is_EOL c then Some (with_state START_RECORD r)
      else if is_newline c then Some r
      else None
  end.

(** The end of a line has been fed: a reader back in [START_RECORD] hands
    out the record and starts the next one. *)
Definition end_of_line (r : reader) : reader :=
  match state r with
  | START_RECORD =>
      {| state := START_RECORD; field := []; fields := [];
         records := records r ++ [fields r] |}
  | _ => r
  end.

(** Does the line end after [c]? Lines end at LF, at CR, and at CR LF. *)
Definition ends_line (c : N) (rest : pystr) : bool :=
  ((c =? LF)
   || (c =? CR) && negb (match rest with c' :: _ => c' =? LF | [] => false end))%N.

(** The end of the input, [mid_line] telling whether the last line lacks
    its terminator: a record cut short inside a quoted field is handed out
    as it stands. *)
Definition end_of_input (r : reader) (mid_line : bool)
    : option (list (list pystr)) :=
  match (if mid_line then option_map end_of_line (process_char r EOL)
         else Some r) with
  | None => None
  | Some r' =>
      match state r' with
      | START_RECORD => Some (records r')
      | _ => Some (records r' ++ [fields (save_field r')])
      end
  end.

(** The reader over the text of a file. *)
Fixpoint read (r : reader) (mid_line : bool) (s : pystr)
    : option (list (list pystr)) :=
  match s with
  | [] => end_of_input r mid_line
  | c :: rest =>
      match process_char r (Char c) with
      | None => None
      | Some r1 =>
          if ends_line c rest then
            match process_char r1 EOL with
            | None => None
            | Some r2 => read (end_of_line r2) false rest
            end
          else read r1 true rest
      end
  end.

Definition new_reader : reader :=
  {| state := START_RECORD; field := []; fields := []; records := [] |}.

(** [list(csv.reader(file))] *)
Definition csv_reader (s : pystr) : option (list (list pystr)) :=
  read new_reader false s.

(** [list(csv.DictReader(file))]: the first record names the fields, empty
    records are skipped, and every other record becomes the dict of its
    values by field name. A record that has not as many values as there
    are names is outside the model ([None]). *)
Definition csv_DictReader (s : pystr) : option (list (list (pystr * pystr))) :=
  match csv_reader s with
  | None | Some [] => None
  | Some (names :: rows) =>
      let rows := List.filter (fun row => negb (bool_decide (row = []))) rows in
      if forallb (fun row => (length row =? length names)%nat) rows
      then Some (map (combine names) rows)
      else None
  end.

End Codec.

(** ** The enhanced variant: class [WebScraper] of advanced_scraper.py *)

Module WebScraper.
Import Py Soup IO Codec.

(** The instance attributes set by [__init__]. *)
Record scraper := {
  base_url : pystr;
  delay : Z;
  max_retries : Z
}.

(** The dict [extract_products] builds for one container. *)
Record product_dict := {
  Name : pystr;
  Price : pystr;
  Rating : pystr;
  Link : pystr;
  Scraped_At : pystr
}.

Section Methods.
Variable E : env.
Variable self : scraper.

(** One pass of the body of the [for attempt in range(self.max_retries)]
    loop of [fetch]. [Some v] is [return v]; [None] falls through to the
    next iteration. *)
Definition fetch_attempt (url : pystr) (attempt : Z)
    : M (option (option pystr)) :=
  try_except
    (log INFO (Fetching_URL (attempt + 1) (max_retries self) url) >>
     let* response := get E url in
     raise_for_status response >>
     sleep (delay self) >>
     ret (Some (Some (response_text response))))
    is_RequestException
    (fun e =>
       log ERROR (Error_fetching_URL e) >>
       if attempt <? max_retries self - 1 then
         let wait_time := (attempt + 1) * 2 in
         log INFO (Retrying_in wait_time) >>
         sleep wait_time >>
         ret None
       else
         log ERROR (Failed_to_fetch_URL_after (max_retries self)) >>
         ret (Some None)).

(** The loop, with [remaining] values of [range] still to come, the next
    one being [attempt]. A loop that runs out returns [None]. *)
Fixpoint fetch_loop (url : pystr) (remaining : nat) (attempt : Z)
    : M (option pystr) :=
  match remaining with
  | O => ret None
  | S remaining' =>
      let* r := fetch_attempt url attempt in
      match r with
      | Some v => ret v
      | None => fetch_loop url remaining' (attempt + 1)
      end
  end.

(** [WebScraper.fetch] *)
Definition fetch (url : pystr) : M (option pystr) :=
  fetch_loop url (Z.to_nat (max_retries self)) 0.

(** The statements of the [try] block of [extract_products] that build
    [product_data]. *)
Definition product_data (product : node) : M product_dict :=
  let name_elem := find product (py "div") (py "KzDlHZ") in
  let name :=
    match name_elem with Some e => strip (text e) | None => py "N/A" end in
  let price_elem := find product (py "div") (py "Nx9bqj _4b5DiR") in
  let price :=
    match price_elem with Some e => strip (text e) | None => py "N/A" end in
  let rating_elem := find product (py "div") (py "XQDdHH") in
  let rating :=
    match rating_elem with Some e => strip (text e) | None => py "N/A" end in
  let link_elem := find product (py "a") (py "CGtC98") in
  let link :=
    match link_elem with
    | Some e =>
        match attrs_of e !! py "href" with
        | Some href => py "https://www.flipkart.com" ++ href
        | None => py "N/A"
        end
    | None => py "N/A"
    end in
  let* t := datetime_now E in
  ret {| Name := name; Price := price; Rating := rating; Link := link;
         Scraped_At := strftime_record t |}.

(** The [for idx, product in enumerate(product_containers, 1)] loop with
    its [try]/[except Exception], over any body that builds the record. *)
Fixpoint extract_loop (body : node -> M product_dict) (idx : nat)
    (product_containers : list node) (products : list product_dict)
    : M (list product_dict) :=
  match product_containers with
  | [] => ret products
  | product :: rest =>
      let* products' :=
        try_except
          (let* data := body product in
           let products' := products ++ [data] in
           log DEBUG (Extracted_product idx (Name data)) >>
           ret products')
          is_Exception
          (fun e =>
             log ERROR (Error_extracting_product idx e) >>
             ret products) in
      extract_loop body (S idx) rest products'
  end.

(** [WebScraper.extract_products], over the statements that build
    [product_data]. *)
Definition extract_products_with (body : node -> M product_dict)
    (html : pystr) : M (list product_dict) :=
  let soup := html_parser E html in
  let product_containers := find_all soup (py "div") (py "tUxRFH") in
  log INFO (Found_product_containers (length product_containers)) >>
  extract_loop body 1 product_containers [].

(** [WebScraper.extract_products] *)
Definition extract_products (html : pystr) : M (list product_dict) :=
  extract_products_with product_data html.

Definition fieldnames : list pystr :=
  [py "Name"; py "Price"; py "Rating"; py "Link"; py "Scraped_At"].

(** The values of a record in the order of [fieldnames]. *)
Definition row_of (p : product_dict) : list pystr :=
  [Name p; Price p; Rating p; Link p; Scraped_At p].

(** [writer.writerows(products)] *)
Fixpoint writerows (filename : pystr) (products : list product_dict) : M unit :=
  match products with
  | [] => ret tt
  | p :: rest =>
      write E filename (csv_row (row_of p)) >> writerows filename rest
  end.

(** [WebScraper.save_to_csv] *)
Definition save_to_csv (products : list product_dict) (filename : pystr)
    : M unit :=
  match products with
  | [] => log WARNING No_products_to_save
  | _ =>
      try_except
        (open_w E filename >>
         write E filename (csv_row fieldnames) >>
         writerows filename products >>
         log INFO (Successfully_saved (length products) filename))
        is_Exception
        (fun e => log ERROR (Error_saving_to_CSV e))
  end.

(** The members of a record as json.dump sees them, in insertion order. *)
Definition members_of (p : product_dict) : list (pystr * pystr) :=
  combine fieldnames (row_of p).

(** [WebScraper.save_to_json] *)
Definition save_to_json (products : list product_dict) (filename : pystr)
    : M unit :=
  match products with
  | [] => log WARNING No_products_to_save
  | _ =>
      try_except
        (open_w E filename >>
         write E filename (json_dumps (map members_of products)) >>
         log INFO (Successfully_saved (length products) filename))
        is_Exception
        (fun e => log ERROR (Error_saving_to_JSON e))
  end.

(** The name [scrape] makes up when none is given. *)
Definition auto_filename (search_query : pystr) (t : datetime) : pystr :=
  py "flipkart_" ++ replace 32 95 search_query ++ py "_" ++ strftime_file t.

(** [WebScraper.scrape]. The URL is built as
    [search_query.replace(' ', '+')]; the source line carries a stray
    quote after ['+']. [output_filename] is [None] when not given. *)
Definition scrape (search_query output_format : pystr)
    (output_filename : option pystr) : M unit :=
  let url := base_url self ++ py "?q=" ++ replace 32 43 search_query in
  log INFO (Starting_scrape search_query) >>
  let* html := fetch url in
  match html with
  | None | Some [] => log ERROR Failed_to_fetch_HTML_content
  | Some html =>
      let* products := extract_products html in
      match products with
      | [] => log WARNING No_products_found
      | _ =>
          let* output_filename :=
            match output_filename with
            | None | Some [] =>
                let* timestamp := datetime_now E in
                ret (auto_filename search_query timestamp)
            | Some name => ret name
            end in
          (if bool_decide (lower output_format = py "json")
           then save_to_json products (output_filename ++ py ".json")
           else save_to_csv products (output_filename ++ py ".csv")) >>
          log INFO (Scraping_completed (length products))
      end
  end.

End Methods.
End WebScraper.

(** ** The minimal variant: Web Scrapper.py *)

Module WebScrapper.
Import Py Soup IO Codec.

(** The dict [extract] builds for one container. *)
Record product_dict := {
  Name : pystr;
  Price : pystr;
  Rating : pystr
}.

Section Functions.
Variable E : env.

(** [fetch(url)] *)
Definition fetch (url : pystr) : M pystr :=
  let* response := get E url in
  sleep 2 >>
  raise_for_status response >>
  ret (response_text response).

(** [elem.text] where [elem] may be [None]. *)
Definition text_of (elem : option node) : M pystr :=
  match elem with
  | Some e => ret (text e)
  | None => raise AttributeError
  end.

(** The body of the [for product in pl] loop, up to the dict. *)
Definition product_data (product : node) : M product_dict :=
  let* name_text := text_of (find product (py "div") (py "KzDlHZ")) in
  let name := strip name_text in
  let* price_text := text_of (find product (py "div") (py "Nx9bqj _4b5DiR")) in
  let price := strip price_text in
  let* rating_text := text_of (find product (py "div") (py "XQDdHH")) in
  let rating := strip rating_text in
  ret {| Name := name; Price := price; Rating := rating |}.

(** The [for product in pl] loop. *)
Fixpoint extract_loop (pl : list node) (products : list product_dict)
    : M (list product_dict) :=
  match pl with
  | [] => ret products
  | product :: rest =>
      let* data := product_data product in
      extract_loop rest (products ++ [data])
  end.

(** [extract(html)] *)
Definition extract (html : pystr) : M (list product_dict) :=
  let soup := html_parser E html in
  let pl := find_all soup (py "div") (py "tUxRFH") in
  extract_loop pl [].

Definition fieldnames : list pystr := [py "Name"; py "Price"; py "Rating"].

Definition row_of (p : product_dict) : list pystr := [Name p; Price p; Rating p].

(** [writer.writerows(products)] *)
Fixpoint writerows (filename : pystr) (products : list product_dict) : M unit :=
  match products with
  | [] => ret tt
  | p :: rest =>
      write E filename (csv_row (row_of p)) >> writerows filename rest
  end.

Definition default_filename : pystr := py "flipkart_products.csv".

(** [save(products, filename)], with its bare [except:]. *)
Definition save (products : list product_dict) (filename : pystr) : M unit :=
  match products with
  | [] => print No_products_found_to_save
  | _ =>
      try_except
        (open_w E filename >>
         write E filename (csv_row fieldnames) >>
         writerows filename products >>
         print (Data_saved_to filename))
        (fun _ => true)
        (fun _ => print Error_saving_data)
  end.

(** [main()] *)
Definition main : M unit :=
  let url := py "https://www.flipkart.com/search?q=laptops" in
  print Fetching_data_from_Flipkart >>
  let* html := fetch url in
  print Extracting_product_details >>
  let* products := extract html in
  match products with
  | [] => print No_products_found
  | _ =>
      print (Found_products_Saving_to_CSV (length products)) >>
      save products default_filename
  end.

End Functions.
End WebScrapper.

(** ** Observations on runs *)

Module Obs.
Import Py Soup IO.

(** The [RequestException] an attempt with outcome [o] ends in, if any:
    the one the GET raises, or the [HTTPError] of [raise_for_status]. *)
Definition request_exception (o : get_outcome) : option exn :=
  match o with
  | GetRaises e => Some (RequestException e)
  | GetResponse r =>
      if is_error_status (status_code r) then Some (HTTPError (status_code r))
      else None
  end.

(** [w'] is [w] after some logging, the sleeps [sleeps] and the GETs
    [urls], and nothing else. *)
Definition only_adds (w w' : world) (sleeps : list Z) (urls : list pystr)
    : Prop :=
  (exists lines, logged w' = logged w ++ lines)
  /\ slept w' = slept w ++ sleeps
  /\ requested w' = requested w ++ urls
  /\ files w' = files w
  /\ printed w' = printed w
  /\ clock_reads w' = clock_reads w.

(** The waits after the failed attempts [1] to [j]: [2; 4; ...; 2 * j]. *)
Definition backoff (j : nat) : list Z :=
  map (fun k => Z.of_nat k * 2) (seq 1 j).

(** The field the enhanced variant reads from a sub-element that may be
    missing: [elem.text.strip() if elem else "N/A"]. *)
Definition text_or_NA (elem : option node) : pystr :=
  match elem with
  | Some e => strip (text e)
  | None => py "N/A"
  end.


(** What became of the containers of a page, one outcome each: the
    records of those that did not raise, ... *)
Definition survivors (outcomes : list (result WebScraper.product_dict))
    : list WebScraper.product_dict :=
  omap (fun o => match o with Returned p => Some p | Raised _ => None end)
       outcomes.

(** ... the number of those that raised, ... *)
Definition failures (outcomes : list (result WebScraper.product_dict)) : nat :=
  length (List.filter
            (fun o => match o with Raised _ => true | Returned _ => false end)
            outcomes).

(** ... and the line logged for each, the first container being number
    [idx]. *)
Definition extraction_log (idx : nat)
    (outcomes : list (result WebScraper.product_dict))
    : list (level * message) :=
  imap (fun i o =>
          match o with
          | Returned p => (DEBUG, Extracted_product (idx + i) (WebScraper.Name p))
          | Raised e => (ERROR, Error_extracting_product (idx + i) e)
          end)
       outcomes.

(** A [datetime] cut to the second, as far as '%Y%m%d_%H%M%S' shows it. *)
Definition to_the_second (t : datetime) : N * N * N * N * N * N :=
  (year t, month t, day t, hour t, minute t, second t).

(** The text of the CSV file a successful [save_to_csv] leaves. *)
Definition csv_document (products : list WebScraper.product_dict) : pystr :=
  Codec.csv_row WebScraper.fieldnames
  ++ concat (map (fun p => Codec.csv_row (WebScraper.row_of p)) products).

(** The text of the CSV file a successful minimal [save] leaves. *)
Definition csv_document_minimal (products : list WebScrapper.product_dict)
    : pystr :=
  Codec.csv_row WebScrapper.fieldnames
  ++ concat (map (fun p => Codec.csv_row (WebScrapper.row_of p)) products).

(** The text of the JSON file a successful [save_to_json] leaves. *)
Definition json_document (products : list WebScraper.product_dict) : pystr :=
  Codec.json_dumps (map WebScraper.members_of products).

End Obs.

(** ** The command line of the enhanced variant: [main] and the logging
    set-up of advanced_scraper.py *)

Module Cli.
Import Py Soup IO.

(** *** The state of the logging module

    The root logger: its level and whether handlers are installed. The
    logger of the module has no level of its own, so a record passes when
    its level is at least the level of the root. *)
Record logging_config := {
  root_level : level;
  has_handlers : bool
}.

(** The root logger before any configuration: level WARNING, no handler. *)
Definition unconfigured : logging_config :=
  {| root_level := WARNING; has_handlers := false |}.

(** [logging.getLogger().setLevel(l)] *)
Definition setLevel (l : level) (c : logging_config) : logging_config :=
  {| root_level := l; has_handlers := has_handlers c |}.

(** [logging.basicConfig(level=l, handlers=[...])]: does nothing when the
    root logger already has handlers; otherwise installs the handlers and
    sets the level of the root. *)
Definition basicConfig (l : level) (c : logging_config) : logging_config :=
  if has_handlers c then c
  else {| root_level := l; has_handlers := true |}.

(** [WebScraper.setup_logging] *)
Definition setup_logging (c : logging_config) : logging_config :=
  basicConfig INFO c.

Definition level_no (l : level) : nat :=
  match l with DEBUG => 10 | INFO => 20 | WARNING => 30 | ERROR => 40 end.

(** The logger calls that reach the handlers under [c]. *)
Definition emitted (c : logging_config) (calls : list (level * message))
    : list (level * message) :=
  List.filter (fun call => (level_no (root_level c) <=? level_no (fst call))%nat)
              calls.

(** The namespace [parser.parse_args()] returns. *)
Record namespace := {
  query : pystr;
  format : pystr;
  output : option pystr;
  arg_delay : Z;
  retries : Z;
  verbose : bool
}.

(** The namespace of a command line without arguments. *)
Definition defaults : namespace :=
  {| query := py "laptops"; format := py "csv"; output := None;
     arg_delay := 2; retries := 3; verbose := false |}.

(** [WebScraper(base_url, delay=args.delay, max_retries=args.retries)] *)
Definition scraper_of (args : namespace) : WebScraper.scraper :=
  {| WebScraper.base_url := py "https://www.flipkart.com/search";
     WebScraper.delay := arg_delay args;
     WebScraper.max_retries := retries args |}.

(** The logging configuration [main] leaves: the level set for
    [--verbose], then the set-up done by [WebScraper.__init__]. *)
Definition main_logging (args : namespace) : logging_config :=
  let c := if verbose args then setLevel DEBUG unconfigured else unconfigured in
  setup_logging c.

(** [main()], after [parse_args]. *)
Definition main (E : env) (args : namespace) : M unit :=
  WebScraper.scrape E (scraper_of args) (query args) (format args)
    (output args).

End Cli.

(** ** More observations on runs *)

Module Reading.
Import Py Soup IO Codec Obs.




(** A container with the three sub-elements the minimal variant reads. *)
Definition complete (c : node) : bool :=
  match find c (py "div") (py "KzDlHZ"),
        find c (py "div") (py "Nx9bqj _4b5DiR"),
        find c (py "div") (py "XQDdHH") with
  | Some _, Some _, Some _ => true
  | _, _, _ => false
  end.





(** [w'] differs from [w] in the log, the printed lines and the file
    [filename] at most. *)
Definition touches_only (filename : pystr) (w w' : world) : Prop :=
  slept w' = slept w /\ requested w' = requested w
  /\ clock_reads w' = clock_reads w
  /\ forall g, g <> filename -> files w' !! g = files w !! g.

End Reading.

(** ** Concrete runs *)

Module Fixtures.
Import Py Soup IO.

Definition search_url : pystr :=
  py "https://www.flipkart.com/search?q=laptops".

Definition page : pystr := py "<html><body>laptops</body></html>".

(** The scraper [main] builds by default: delay 2, three retries. *)
Definition default_scraper : WebScraper.scraper :=
  {| WebScraper.base_url := py "https://www.flipkart.com/search";
     WebScraper.delay := 2;
     WebScraper.max_retries := 3 |}.

(** [--retries 0] *)
Definition no_retry_scraper : WebScraper.scraper :=
  {| WebScraper.base_url := py "https://www.flipkart.com/search";
     WebScraper.delay := 2;
     WebScraper.max_retries := 0 |}.

Definition noon : datetime :=
  {| year := 2024; month := 5; day := 17;
     hour := 12; minute := 0; second := 0; microsecond := 0 |}.

Definition blank_page : node := Tag (py "html") ∅ [].

(** An environment with the given network, a clock stuck at [noon], a
    disk that works and a parser that sees [soup] in every page. *)
Definition env_of (n : nat -> pystr -> get_outcome) (soup : node) : env :=
  {| net := n; now := fun _ => noon; disk := fun _ => IoOk;
     html_parser := fun _ => soup |}.

(** Every GET ends in a connection error. *)
Definition network_down : env :=
  env_of (fun _ _ => GetRaises ConnectionError) blank_page.

(** Every GET is answered 300 Multiple Choices, with a body. *)
Definition answers_300 : env :=
  env_of (fun _ _ => GetResponse {| status_code := 300; response_text := page |})
         blank_page.

(** The first two GETs time out, the third is answered 200. *)
Definition third_time_lucky : env :=
  env_of (fun k _ =>
            if (k <? 2)%nat then GetRaises Timeout
            else GetResponse {| status_code := 200; response_text := page |})
         blank_page.

(** *** Product cards *)

Definition div (cls : string) (contents : list node) : node :=
  Tag (py "div") {[ py "class" := py cls ]} contents.

Definition name_div (s : string) : node := div "KzDlHZ" [NavigableString (py s)].
Definition price_div (s : string) : node :=
  div "Nx9bqj _4b5DiR" [NavigableString (py s)].
Definition rating_div (s : string) : node := div "XQDdHH" [NavigableString (py s)].

(** [<a class="CGtC98" href=...>Buy now</a>] *)
Definition link_a (href : string) : node :=
  Tag (py "a") {[ py "class" := py "CGtC98"; py "href" := py href ]}
      [NavigableString (py "Buy now")].

(** The same anchor without an [href]. *)
Definition bare_a : node :=
  Tag (py "a") {[ py "class" := py "CGtC98" ]} [NavigableString (py "Buy now")].

Definition card (contents : list node) : node := div "tUxRFH" contents.

Definition full_card : node :=
  card [link_a "/p/itm1"; name_div " Laptop A "; price_div "Rs 1"; rating_div "4.5"].

Definition card_without_rating : node :=
  card [link_a "/p/itm2"; name_div "Laptop B"; price_div "Rs 2"].

Definition card_with_bare_link : node :=
  card [bare_a; name_div "Laptop C"; price_div "Rs 3"; rating_div "4.1"].

(** Three cards, the second without a rating. *)
Definition three_cards : node :=
  Tag (py "html") ∅ [full_card; card_without_rating; card_with_bare_link].

(** Two cards, the first without a rating. *)
Definition two_cards : node :=
  Tag (py "html") ∅ [card_without_rating; full_card].

(** A network that answers every GET with [page], 200. *)
Definition online (soup : node) : env :=
  env_of (fun _ _ => GetResponse {| status_code := 200; response_text := page |})
         soup.

(** A body for the [try] block that raises where the rating is missing,
    as reading [.text] of [None] would. *)
Definition fragile_body (E : env) (product : node) : M WebScraper.product_dict :=
  match find product (py "div") (py "XQDdHH") with
  | None => raise AttributeError
  | Some _ => WebScraper.product_data E product
  end.

(** The same, with a disk on which no file can be opened for writing. *)
Definition read_only_disk (soup : node) : env :=
  {| net := fun _ _ =>
       GetResponse {| status_code := 200; response_text := page |};
     now := fun _ => noon; disk := fun _ => OpenFails;
     html_parser := fun _ => soup |}.

Definition laptop : WebScraper.product_dict :=
  {| WebScraper.Name := py "Laptop A"; WebScraper.Price := py "Rs 1";
     WebScraper.Rating := py "4.5";
     WebScraper.Link := py "https://www.flipkart.com/p/itm1";
     WebScraper.Scraped_At := py "2024-05-17 12:00:00" |}.

Definition other_page : pystr := py "<html><body>more laptops</body></html>".

(** Two runs within one second: the clock moves by a microsecond at each
    reading, the first GET is answered with [page] (one card) and the later
    ones with [other_page] (another card). *)
Definition same_second : env :=
  {| net := fun k _ =>
       GetResponse {| status_code := 200;
                      response_text := if (k =? 0)%nat then page else other_page |};
     now := fun k =>
       {| year := 2024; month := 5; day := 17;
          hour := 12; minute := 0; second := 0; microsecond := N.of_nat k |};
     disk := fun _ => IoOk;
     html_parser := fun html =>
       if bool_decide (html = page)
       then Tag (py "html") ∅ [full_card]
       else Tag (py "html") ∅ [card_with_bare_link] |}.

(** The first run of [same_second], step by step: the world after the
    fetch, and the records and the world after the extraction. *)
Definition first_fetch : world :=
  snd (WebScraper.fetch same_second default_scraper
         (py "https://www.flipkart.com/search?q=laptops")
         (set_logged (fun ls => ls ++ [(INFO, Starting_scrape (py "laptops"))])
            empty_world)).

Definition first_products : list WebScraper.product_dict :=
  match fst (WebScraper.extract_products same_second page first_fetch) with
  | Returned products => products
  | Raised _ => []
  end.

Definition first_extract : world :=
  snd (WebScraper.extract_products same_second page first_fetch).

(** The world after one auto-named CSV scrape of "laptops" from [w]. *)
Definition after_scrape (w : world) : world :=
  snd (WebScraper.scrape same_second default_scraper (py "laptops") (py "csv")
         None w).

(** A record whose name holds a quote, a comma, a line break and a tab,
    and whose price holds a character outside ASCII. *)
Definition awkward : WebScraper.product_dict :=
  {| WebScraper.Name :=
       py "Laptop " ++ [34%N] ++ py "Pro" ++ [34%N] ++ py ", 16GB"
       ++ [13%N; 10%N; 9%N] ++ py "new";
     WebScraper.Price := [8377%N] ++ py "54,990";
     WebScraper.Rating := py "N/A";
     WebScraper.Link := py "https://www.flipkart.com/p/itm2?x=\y";
     WebScraper.Scraped_At := py "2024-05-17 12:00:00" |}.

(** A world in which [products.json] and [products.csv] hold [laptop]. *)
Definition earlier_run : world :=
  {| logged := []; printed := []; slept := []; requested := [];
     files := {[ py "products.json" := Obs.json_document [laptop];
                 py "products.csv" := Obs.csv_document [laptop] ]};
     clock_reads := 0 |}.

End Fixtures.

(** ** More concrete runs *)

Module Scenarios.
Import Py Soup IO Cli.



(** [--output out --format json] *)
Definition to_out_json : namespace :=
  {| query := py "laptops"; format := py "json"; output := Some (py "out");
     arg_delay := 2; retries := 3; verbose := false |}.




End Scenarios.

(** * Properties *)

Import Py Soup IO Codec Obs.

(** ** Effects compose *)

Lemma only_adds_refl (w : world) : only_adds w w [] [].
Proof.
  unfold only_adds. repeat split; try (by rewrite app_nil_r).
  exists []. by rewrite app_nil_r.
Qed.

Lemma only_adds_trans (w1 w2 w3 : world) s1 s2 u1 u2 :
  only_adds w1 w2 s1 u1 -> only_adds w2 w3 s2 u2 ->
  only_adds w1 w3 (s1 ++ s2) (u1 ++ u2).
Proof.
  intros ([l1 Hl1] & Hs1 & Hu1 & Hf1 & Hp1 & Hc1)
         ([l2 Hl2] & Hs2 & Hu2 & Hf2 & Hp2 & Hc2).
  unfold only_adds. repeat split.
  - exists (l1 ++ l2). rewrite Hl2, Hl1. by rewrite app_assoc.
  - rewrite Hs2, Hs1. by rewrite app_assoc.
  - rewrite Hu2, Hu1. by rewrite app_assoc.
  - congruence.
  - congruence.
  - congruence.
Qed.

Lemma backoff_from_zero (j : nat) :
  map (fun k => (0 + Z.of_nat k) * 2) (seq 1 j) = backoff j.
Proof. unfold backoff. apply map_ext. intros k. f_equal. Qed.

(** ** The retry loop of [WebScraper.fetch] *)

Section FetchFacts.
Variable E : env.
Variable self : WebScraper.scraper.
Variable url : pystr.

Local Abbreviation R := (WebScraper.max_retries self).

(** A failed attempt that is not the last one waits and falls through. *)
Lemma fetch_attempt_retry (attempt : Z) (w : world) :
  request_exception (net E (length (requested w)) url) <> None ->
  0 <= attempt < R - 1 ->
  exists w',
    WebScraper.fetch_attempt E self url attempt w = (Returned None, w')
    /\ only_adds w w' [(attempt + 1) * 2] [url].
Proof.
  intros Hfail [H0 Hlt].
  unfold WebScraper.fetch_attempt, try_except, bind, log, get, raise_for_status.
  unfold request_exception in Hfail. cbn.
  destruct (net E (length (requested w)) url) as [e | r]; cbn.
  - destruct (Z.ltb_spec attempt (WebScraper.max_retries self - 1));
      [| lia].
    unfold sleep.
    destruct (Z.ltb_spec ((attempt + 1) * 2) 0); [lia |].
    eexists; split; [reflexivity |].
    unfold only_adds; cbn. repeat split.
    eexists. rewrite <- !app_assoc. reflexivity.
  - destruct (is_error_status (status_code r)); [| congruence]. cbn.
    destruct (Z.ltb_spec attempt (WebScraper.max_retries self - 1));
      [| lia].
    unfold sleep.
    destruct (Z.ltb_spec ((attempt + 1) * 2) 0); [lia |].
    eexists; split; [reflexivity |].
    unfold only_adds; cbn. repeat split.
    eexists. rewrite <- !app_assoc. reflexivity.
Qed.

(** The last attempt, failed, returns [None] without waiting. *)
Lemma fetch_attempt_give_up (attempt : Z) (w : world) :
  request_exception (net E (length (requested w)) url) <> None ->
  R - 1 <= attempt ->
  exists w',
    WebScraper.fetch_attempt E self url attempt w = (Returned (Some None), w')
    /\ only_adds w w' [] [url].
Proof.
  intros Hfail Hge.
  unfold WebScraper.fetch_attempt, try_except, bind, log, get, raise_for_status.
  unfold request_exception in Hfail. cbn.
  destruct (net E (length (requested w)) url) as [e | r]; cbn.
  - destruct (Z.ltb_spec attempt (WebScraper.max_retries self - 1));
      [lia |].
    eexists; split; [reflexivity |].
    unfold only_adds; cbn. repeat split; try (by rewrite app_nil_r).
    eexists. rewrite <- !app_assoc. reflexivity.
  - destruct (is_error_status (status_code r)); [| congruence]. cbn.
    destruct (Z.ltb_spec attempt (WebScraper.max_retries self - 1));
      [lia |].
    eexists; split; [reflexivity |].
    unfold only_adds; cbn. repeat split; try (by rewrite app_nil_r).
    eexists. rewrite <- !app_assoc. reflexivity.
Qed.


(** [j] failed attempts, none of them the last: the loop has made [j]
    GETs and waited [2 * (attempt + 1)], ..., [2 * (attempt + j)]. *)
Lemma fetch_loop_failures (j : nat) :
  forall (n : nat) (attempt : Z) (w : world),
    0 <= attempt ->
    attempt + Z.of_nat j <= R - 1 ->
    (forall i, (i < j)%nat ->
       request_exception (net E (length (requested w) + i) url) <> None) ->
    exists w',
      WebScraper.fetch_loop E self url (j + n) attempt w
      = WebScraper.fetch_loop E self url n (attempt + Z.of_nat j) w'
      /\ only_adds w w'
           (map (fun k => (attempt + Z.of_nat k) * 2) (seq 1 j))
           (replicate j url).
Proof.
  induction j as [| j IH]; intros n attempt w H0 Hle Hfail.
  - exists w. split.
    + cbn [plus]. by replace (attempt + Z.of_nat 0) with attempt by lia.
    + apply only_adds_refl.
  - destruct (fetch_attempt_retry attempt w) as (w1 & Hrun & Hadd).
    { specialize (Hfail 0%nat). rewrite Nat.add_0_r in Hfail.
      apply Hfail. lia. }
    { lia. }
    destruct (IH n (attempt + 1) w1) as (w2 & Hloop & Hadd2).
    { lia. }
    { lia. }
    { intros i Hi.
      destruct Hadd as (_ & _ & Hreq & _). rewrite Hreq, length_app. cbn.
      replace (length (requested w) + 1 + i)%nat
        with (length (requested w) + S i)%nat by lia.
      apply Hfail. lia. }
    exists w2. split.
    + cbn [plus WebScraper.fetch_loop]. unfold bind at 1. rewrite Hrun.
      rewrite Hloop. f_equal. lia.
    + pose proof (only_adds_trans _ _ _ _ _ _ _ Hadd Hadd2) as Hall.
      cbn [seq map replicate].
      replace (attempt + Z.of_nat 1) with (attempt + 1) by lia.
      rewrite <- seq_shift, map_map.
      erewrite (map_ext (fun k => (attempt + Z.of_nat (S k)) * 2)).
      * exact Hall.
      * intros k. cbn beta. f_equal. lia.
Qed.

(** Every attempt fails: [fetch] makes [R] GETs, waits after each but the
    last, and returns [None]. *)
Lemma fetch_all_fail (w : world) :
  1 <= R ->
  (forall i, (i < Z.to_nat R)%nat ->
     request_exception (net E (length (requested w) + i) url) <> None) ->
  exists w',
    WebScraper.fetch E self url w = (Returned None, w')
    /\ only_adds w w' (backoff (Z.to_nat R - 1)) (replicate (Z.to_nat R) url).
Proof.
  intros HR Hfail.
  set (j := (Z.to_nat R - 1)%nat).
  destruct (fetch_loop_failures j 1 0 w) as (w1 & Hloop & Hadd).
  { lia. }
  { lia. }
  { intros i Hi. apply Hfail. lia. }
  destruct (fetch_attempt_give_up (0 + Z.of_nat j) w1) as (w2 & Hrun & Hadd2).
  { destruct Hadd as (_ & _ & Hreq & _). rewrite Hreq, length_app.
    rewrite length_replicate. apply Hfail. lia. }
  { lia. }
  exists w2. split.
  - unfold WebScraper.fetch.
    replace (Z.to_nat R) with (j + 1)%nat by lia.
    rewrite Hloop. cbn [WebScraper.fetch_loop]. unfold bind. by rewrite Hrun.
  - pose proof (only_adds_trans _ _ _ _ _ _ _ Hadd Hadd2) as Hall.
    rewrite app_nil_r in Hall.
    rewrite backoff_from_zero in Hall.
    assert (HRj : Z.to_nat R = (j + 1)%nat) by lia.
    rewrite HRj, replicate_add. exact Hall.
Qed.




End FetchFacts.

(** ** Claims on [fetch] *)

(** C3 (as amended). For a scraper with [max_retries = R >= 1]: if every
    one of the [R] attempts ends in a [RequestException] (the GET raises a
    connection error, a timeout or another exception of requests, or
    [raise_for_status] rejects a 4xx or 5xx status), then [fetch] makes
    exactly [R] GETs of the URL and returns [None]; nothing is raised. *)
Theorem fetch_retry_bound (E : env) (self : WebScraper.scraper)
    (url : pystr) (w : world) :
  1 <= WebScraper.max_retries self ->
  (forall i, (i < Z.to_nat (WebScraper.max_retries self))%nat ->
     request_exception (net E (length (requested w) + i) url) <> None) ->
  exists w',
    WebScraper.fetch E self url w = (Returned None, w')
    /\ requested w'
       = requested w ++ replicate (Z.to_nat (WebScraper.max_retries self)) url.
Proof.
  intros HR Hfail.
  destruct (fetch_all_fail E self url w HR Hfail) as (w' & Hrun & Hadd).
  exists w'. split; [exact Hrun |].
  by destruct Hadd as (_ & _ & Hreq & _).
Qed.

Lemma fetch_retry_bound_witness :
  exists w',
    WebScraper.fetch Fixtures.network_down Fixtures.default_scraper
      Fixtures.search_url empty_world = (Returned None, w')
    /\ requested w'
       = requested empty_world ++ replicate 3 Fixtures.search_url.
Proof.
  apply (fetch_retry_bound Fixtures.network_down Fixtures.default_scraper
           Fixtures.search_url empty_world).
  - simpl. lia.
  - intros i _. simpl. discriminate.
Defined.

(** C3, as stated, fails: a status outside 2xx that is not 4xx or 5xx is
    no failure for [fetch]. With three retries and a server that answers
    300 to every GET, [fetch] returns the body after one GET. *)
Lemma fetch_status_300_counterexample :
  (forall k, exists r,
     net Fixtures.answers_300 k Fixtures.search_url = GetResponse r
     /\ ~ (200 <= status_code r < 300))
  /\ 1 <= WebScraper.max_retries Fixtures.default_scraper
  /\ fst (WebScraper.fetch Fixtures.answers_300 Fixtures.default_scraper
            Fixtures.search_url empty_world)
     = Returned (Some Fixtures.page)
  /\ requested (snd (WebScraper.fetch Fixtures.answers_300
                       Fixtures.default_scraper Fixtures.search_url
                       empty_world))
     = [Fixtures.search_url].
Proof.
  split; [| split; [| split]].
  - intros k. eexists. split; [reflexivity |]. simpl. lia.
  - simpl. lia.
  - reflexivity.
  - reflexivity.
Qed.



(** C10. With [max_retries = 0], [fetch] returns [None] and leaves the
    world as it was: no GET, no sleep, no log line. The value returned is
    the one a caller gets when the retries are exhausted. *)
Theorem fetch_zero_retries (E : env) (self : WebScraper.scraper)
    (url : pystr) (w : world) :
  WebScraper.max_retries self = 0 ->
  WebScraper.fetch E self url w = (Returned None, w)
  /\ (forall (E' : env) (self' : WebScraper.scraper) (url' : pystr)
             (w0 : world),
        1 <= WebScraper.max_retries self' ->
        (forall i, (i < Z.to_nat (WebScraper.max_retries self'))%nat ->
           request_exception (net E' (length (requested w0) + i) url')
           <> None) ->
        fst (WebScraper.fetch E' self' url' w0)
        = fst (WebScraper.fetch E self url w)).
Proof.
  intros H0.
  assert (Hrun : WebScraper.fetch E self url w = (Returned None, w)).
  { unfold WebScraper.fetch. rewrite H0. reflexivity. }
  split; [exact Hrun |].
  intros E' self' url' w0 HR Hfail.
  destruct (fetch_all_fail E' self' url' w0 HR Hfail) as (w' & Hrun' & _).
  by rewrite Hrun, Hrun'.
Qed.

Lemma fetch_zero_retries_witness :
  WebScraper.fetch Fixtures.third_time_lucky Fixtures.no_retry_scraper
    Fixtures.search_url empty_world = (Returned None, empty_world).
Proof.
  apply (fetch_zero_retries Fixtures.third_time_lucky
           Fixtures.no_retry_scraper Fixtures.search_url empty_world).
  reflexivity.
Defined.

(** ** Searching the tree *)


Lemma find_Some_first (n : node) (name cls : pystr) (e : node) :
  find n name cls = Some e
  <-> exists before after,
        descendants n = before ++ e :: after
        /\ matches name cls e = true
        /\ Forall (fun d => matches name cls d = false) before.
Proof.
  unfold find, find_all.
  induction (descendants n) as [| d ds IH]; cbn.
  - split; [discriminate |].
    intros (before & after & H & _). by destruct before.
  - destruct (matches name cls d) eqn:Hd; cbn.
    + split.
      * intros [= ->]. exists [], ds. repeat split; [done | constructor].
      * intros (before & after & H & He & Hb).
        destruct before as [| b before]; cbn in H.
        -- by inversion H.
        -- inversion H; subst. inversion Hb; subst. congruence.
    + rewrite IH. split.
      * intros (before & after & -> & He & Hb).
        exists (d :: before), after. repeat split; [done | by constructor].
      * intros (before & after & H & He & Hb).
        destruct before as [| b before]; cbn in H.
        -- inversion H; subst. congruence.
        -- inversion H; subst. inversion Hb; subst.
           by exists before, after.
Qed.

(** ** Extraction, enhanced variant *)


Lemma survivors_failures (outcomes : list (result WebScraper.product_dict)) :
  (length (survivors outcomes) + failures outcomes = length outcomes)%nat.
Proof.
  unfold survivors, failures.
  induction outcomes as [| [p | e] os IH]; cbn; lia.
Qed.

Lemma extraction_log_cons (idx : nat) (o : result WebScraper.product_dict)
    (os : list (result WebScraper.product_dict)) :
  extraction_log idx (o :: os)
  = extraction_log idx [o] ++ extraction_log (S idx) os.
Proof.
  unfold extraction_log. cbn. f_equal.
  apply imap_ext. intros i o' _. cbn.
  by replace (idx + S i)%nat with (S (idx + i)) by lia.
Qed.

(** The loop over the containers: the records of the containers whose
    body returned are appended in order, the others are skipped, and one
    line is logged for each. *)
Lemma extract_loop_outcomes (body : node -> M WebScraper.product_dict) :
  forall (containers : list node) (idx : nat)
         (products : list WebScraper.product_dict) (w : world),
  exists outcomes w',
    WebScraper.extract_loop body idx containers products w
    = (Returned (products ++ survivors outcomes), w')
    /\ Forall2 (fun c o => exists w0, fst (body c w0) = o) containers outcomes
    /\ ((forall c w0, logged (snd (body c w0)) = logged w0) ->
        logged w' = logged w ++ extraction_log idx outcomes).
Proof.
  intros containers.
  induction containers as [| c cs IH]; intros idx products w.
  - exists [], w. cbn. rewrite !app_nil_r. repeat split. constructor.
  - cbn [WebScraper.extract_loop].
    unfold bind at 1. unfold try_except, bind at 1.
    destruct (body c w) as [[p | e] w1] eqn:Hbody.
    + cbn.
      destruct (IH (S idx) (products ++ [p])
                  (set_logged (fun ls => ls ++ [(DEBUG, Extracted_product idx (WebScraper.Name p))]) w1))
        as (os & w' & Hrun & Hall & Hlogs).
      exists (Returned p :: os), w'. split; [| split].
      * rewrite Hrun. cbn. by rewrite <- app_assoc.
      * constructor; [| exact Hall]. exists w. by rewrite Hbody.
      * intros Hquiet. pose proof (Hquiet c w) as Hlog.
        rewrite Hbody in Hlog. cbn in Hlog.
        rewrite (Hlogs Hquiet), extraction_log_cons. cbn.
        rewrite Hlog, <- app_assoc, Nat.add_0_r. reflexivity.
    + cbn.
      destruct (IH (S idx) products
                  (set_logged (fun ls => ls ++ [(ERROR, Error_extracting_product idx e)]) w1))
        as (os & w' & Hrun & Hall & Hlogs).
      exists (Raised e :: os), w'. split; [| split].
      * rewrite Hrun. reflexivity.
      * constructor; [| exact Hall]. exists w. by rewrite Hbody.
      * intros Hquiet. pose proof (Hquiet c w) as Hlog.
        rewrite Hbody in Hlog. cbn in Hlog.
        rewrite (Hlogs Hquiet), extraction_log_cons. cbn.
        rewrite Hlog, <- app_assoc, Nat.add_0_r. reflexivity.
Qed.




(** ** Extraction, minimal variant *)

Lemma minimal_product_data_present (product n p r : node) (w : world) :
  find product (py "div") (py "KzDlHZ") = Some n ->
  find product (py "div") (py "Nx9bqj _4b5DiR") = Some p ->
  find product (py "div") (py "XQDdHH") = Some r ->
  WebScrapper.product_data product w
  = (Returned {| WebScrapper.Name := strip (text n);
                 WebScrapper.Price := strip (text p);
                 WebScrapper.Rating := strip (text r) |}, w).
Proof.
  intros Hn Hp Hr. unfold WebScrapper.product_data.
  rewrite Hn, Hp, Hr. reflexivity.
Qed.

Lemma minimal_extract_loop_present (pl : list node) :
  Forall (fun c =>
            is_Some (find c (py "div") (py "KzDlHZ"))
            /\ is_Some (find c (py "div") (py "Nx9bqj _4b5DiR"))
            /\ is_Some (find c (py "div") (py "XQDdHH"))) pl ->
  forall (products : list WebScrapper.product_dict) (w : world),
  exists found,
    WebScrapper.extract_loop pl products w = (Returned (products ++ found), w)
    /\ Forall2 (fun c d =>
          Some (WebScrapper.Name d)
          = (fun e => strip (text e)) <$> find c (py "div") (py "KzDlHZ")
          /\ Some (WebScrapper.Price d)
             = (fun e => strip (text e))
               <$> find c (py "div") (py "Nx9bqj _4b5DiR")
          /\ Some (WebScrapper.Rating d)
             = (fun e => strip (text e)) <$> find c (py "div") (py "XQDdHH"))
         pl found.
Proof.
  induction 1 as [| c cs ([n Hn] & [p Hp] & [r Hr]) _ IH]; intros products w.
  - exists []. cbn. rewrite app_nil_r. split; [done | constructor].
  - cbn [WebScrapper.extract_loop]. unfold bind at 1.
    rewrite (minimal_product_data_present c n p r w Hn Hp Hr).
    destruct (IH (products ++ [ {| WebScrapper.Name := strip (text n);
                                  WebScrapper.Price := strip (text p);
                                  WebScrapper.Rating := strip (text r) |} ]) w)
      as (found & Hrun & Hall).
    eexists (_ :: found). split.
    + rewrite Hrun. by rewrite <- app_assoc.
    + constructor; [| exact Hall]. rewrite Hn, Hp, Hr. done.
Qed.

(** ** Claims on extraction *)



(** C2 (as amended). Enhanced variant: whatever the statements of the
    [try] block do to one container, of the [C] containers of a page the
    [F] whose block raises are skipped whole, the loop goes on, and the
    [C - F] records of the others are returned in the order of their
    containers. When the block itself leaves the log alone, the log gains
    the count of containers and then one line for each container in
    order: a debug line for a record, an error line for a failure. *)
Theorem extract_products_skips_failing_containers (E : env)
    (body : node -> M WebScraper.product_dict) (html : pystr) (w : world) :
  let containers := find_all (html_parser E html) (py "div") (py "tUxRFH") in
  exists outcomes w',
    WebScraper.extract_products_with E body html w
    = (Returned (survivors outcomes), w')
    /\ Forall2 (fun c o => exists w0, fst (body c w0) = o) containers outcomes
    /\ length (survivors outcomes)
       = (length containers - failures outcomes)%nat
    /\ ((forall c w0, logged (snd (body c w0)) = logged w0) ->
        logged w'
        = logged w
          ++ (INFO, Found_product_containers (length containers))
             :: extraction_log 1 outcomes).
Proof.
  intros containers.
  unfold WebScraper.extract_products_with. fold containers.
  unfold bind at 1, log. cbn beta iota.
  destruct (extract_loop_outcomes body containers 1 []
              (set_logged
                 (fun ls => ls ++ [(INFO, Found_product_containers (length containers))])
                 w))
    as (outcomes & w' & Hrun & Hall & Hlogs).
  exists outcomes, w'. split; [exact Hrun |]. split; [exact Hall |]. split.
  - pose proof (survivors_failures outcomes) as Hcount.
    apply Forall2_length in Hall. lia.
  - intros Hquiet. rewrite (Hlogs Hquiet). cbn. by rewrite <- app_assoc.
Qed.

(** The page of three cards under a body that raises where the rating is
    missing: two records, of the first and the third card, and an error
    line for the second. *)
Lemma extract_products_skips_failing_containers_witness :
  exists outcomes w',
    WebScraper.extract_products_with (Fixtures.online Fixtures.three_cards)
      (Fixtures.fragile_body (Fixtures.online Fixtures.three_cards))
      Fixtures.page empty_world
    = (Returned (survivors outcomes), w')
    /\ length (survivors outcomes) = 2%nat
    /\ failures outcomes = 1%nat
    /\ logged w'
       = (INFO, Found_product_containers 3) :: extraction_log 1 outcomes.
Proof.
  destruct (extract_products_skips_failing_containers
              (Fixtures.online Fixtures.three_cards)
              (Fixtures.fragile_body (Fixtures.online Fixtures.three_cards))
              Fixtures.page empty_world)
    as (outcomes & w' & Hrun & _ & _ & Hlogs).
  exists outcomes, w'. split; [exact Hrun |].
  assert (Hquiet : forall c w0,
             logged (snd (Fixtures.fragile_body
                            (Fixtures.online Fixtures.three_cards) c w0))
             = logged w0).
  { intros c w0. unfold Fixtures.fragile_body.
    destruct (find c (py "div") (py "XQDdHH")); reflexivity. }
  specialize (Hlogs Hquiet).
  assert (Hlen : length (match fst (WebScraper.extract_products_with
                                     (Fixtures.online Fixtures.three_cards)
                                     (Fixtures.fragile_body
                                        (Fixtures.online Fixtures.three_cards))
                                     Fixtures.page empty_world) with
                         | Returned found => found
                         | Raised _ => []
                         end) = 2%nat) by (vm_compute; reflexivity).
  rewrite Hrun in Hlen. cbn [fst] in Hlen.
  split; [exact Hlen |]. split; [| exact Hlogs].
  assert (Hw' : w' = snd (WebScraper.extract_products_with
                            (Fixtures.online Fixtures.three_cards)
                            (Fixtures.fragile_body
                               (Fixtures.online Fixtures.three_cards))
                            Fixtures.page empty_world)) by (by rewrite Hrun).
  assert (Hloglen : length (logged w') = 4%nat).
  { rewrite Hw'. vm_compute. reflexivity. }
  rewrite Hlogs in Hloglen. cbn in Hloglen.
  unfold extraction_log in Hloglen. rewrite length_imap in Hloglen.
  pose proof (survivors_failures outcomes). lia.
Defined.

(** C2, as stated, fails in the minimal variant: of two containers the
    first lacks a rating, its body raises, and [extract] returns no record
    at all where the claim promises one. *)
Lemma minimal_extract_aborts_counterexample :
  length (find_all (html_parser (Fixtures.online Fixtures.two_cards)
                      Fixtures.page) (py "div") (py "tUxRFH")) = 2%nat
  /\ fst (WebScrapper.product_data Fixtures.card_without_rating empty_world)
     = Raised AttributeError
  /\ (exists d,
        fst (WebScrapper.product_data Fixtures.full_card empty_world)
        = Returned d)
  /\ fst (WebScrapper.extract (Fixtures.online Fixtures.two_cards)
            Fixtures.page empty_world) = Raised AttributeError.
Proof.
  split; [vm_compute; reflexivity |].
  split; [vm_compute; reflexivity |].
  split; [eexists; vm_compute; reflexivity |].
  vm_compute; reflexivity.
Qed.

(** ** Claims on empty results *)



(** ** Writing files *)

Section SaveFacts.
Variable E : env.
Variable filename : pystr.

Lemma write_ok (data content : pystr) (w : world) :
  disk E filename = IoOk ->
  files w !! filename = Some content ->
  exists w',
    write E filename data w = (Returned tt, w')
    /\ files w' = <[filename := content ++ data]> (files w)
    /\ logged w' = logged w /\ printed w' = printed w
    /\ slept w' = slept w /\ requested w' = requested w
    /\ clock_reads w' = clock_reads w.
Proof.
  intros Hdisk Hfile. unfold write. rewrite Hdisk.
  eexists. split; [reflexivity |].
  unfold set_files. cbn [files logged printed slept requested clock_reads].
  rewrite Hfile. repeat split.
Qed.

Lemma writerows_ok (products : list WebScraper.product_dict) :
  disk E filename = IoOk ->
  forall (content : pystr) (w : world),
    files w !! filename = Some content ->
    exists w',
      WebScraper.writerows E filename products w = (Returned tt, w')
      /\ files w'
         = <[filename :=
               content
               ++ concat (map (fun p => csv_row (WebScraper.row_of p)) products)]>
             (files w)
      /\ logged w' = logged w /\ printed w' = printed w
      /\ slept w' = slept w /\ requested w' = requested w
      /\ clock_reads w' = clock_reads w.
Proof.
  intros Hdisk.
  induction products as [| p ps IH]; intros content w Hfile.
  - exists w. cbn. rewrite app_nil_r, insert_id by done. repeat split.
  - destruct (write_ok (csv_row (WebScraper.row_of p)) content w Hdisk Hfile)
      as (w1 & Hrun & Hf1 & Hl1 & Hp1 & Hs1 & Hr1 & Hc1).
    destruct (IH (content ++ csv_row (WebScraper.row_of p)) w1)
      as (w2 & Hrun2 & Hf2 & Hl2 & Hp2 & Hs2 & Hr2 & Hc2).
    { rewrite Hf1. apply lookup_insert_eq. }
    exists w2. split.
    + cbn [WebScraper.writerows]. unfold bind. by rewrite Hrun.
    + rewrite Hf2, Hf1, insert_insert_eq. cbn. rewrite <- app_assoc.
      repeat split; congruence.
Qed.

Lemma minimal_writerows_ok (products : list WebScrapper.product_dict) :
  disk E filename = IoOk ->
  forall (content : pystr) (w : world),
    files w !! filename = Some content ->
    exists w',
      WebScrapper.writerows E filename products w = (Returned tt, w')
      /\ files w'
         = <[filename :=
               content
               ++ concat (map (fun p => csv_row (WebScrapper.row_of p)) products)]>
             (files w)
      /\ logged w' = logged w /\ printed w' = printed w
      /\ slept w' = slept w /\ requested w' = requested w
      /\ clock_reads w' = clock_reads w.
Proof.
  intros Hdisk.
  induction products as [| p ps IH]; intros content w Hfile.
  - exists w. cbn. rewrite app_nil_r, insert_id by done. repeat split.
  - destruct (write_ok (csv_row (WebScrapper.row_of p)) content w Hdisk Hfile)
      as (w1 & Hrun & Hf1 & Hl1 & Hp1 & Hs1 & Hr1 & Hc1).
    destruct (IH (content ++ csv_row (WebScrapper.row_of p)) w1)
      as (w2 & Hrun2 & Hf2 & Hl2 & Hp2 & Hs2 & Hr2 & Hc2).
    { rewrite Hf1. apply lookup_insert_eq. }
    exists w2. split.
    + cbn [WebScrapper.writerows]. unfold bind. by rewrite Hrun.
    + rewrite Hf2, Hf1, insert_insert_eq. cbn. rewrite <- app_assoc.
      repeat split; congruence.
Qed.

(** A save that the disk lets through: the file holds the header and the
    rows, and the success is logged. *)
Lemma save_to_csv_ok (products : list WebScraper.product_dict) (w : world) :
  disk E filename = IoOk ->
  products <> [] ->
  exists w',
    WebScraper.save_to_csv E products filename w = (Returned tt, w')
    /\ files w' = <[filename := csv_document products]> (files w)
    /\ logged w'
       = logged w ++ [(INFO, Successfully_saved (length products) filename)].
Proof.
  intros Hdisk Hne.
  destruct products as [| p ps]; [done |].
  unfold WebScraper.save_to_csv, try_except.
  set (products := p :: ps).
  unfold bind at 1. unfold open_w at 1. rewrite Hdisk. cbn beta iota.
  unfold bind at 1.
  destruct (write_ok (csv_row WebScraper.fieldnames) []
              (set_files (fun fs => <[filename := []]> fs) w) Hdisk)
    as (w1 & Hrun & Hf1 & Hl1 & _).
  { cbn. apply lookup_insert_eq. }
  rewrite Hrun. unfold bind at 1.
  destruct (writerows_ok products Hdisk ([] ++ csv_row WebScraper.fieldnames) w1)
    as (w2 & Hrun2 & Hf2 & Hl2 & _).
  { rewrite Hf1. apply lookup_insert_eq. }
  rewrite Hrun2. unfold log. eexists. split; [reflexivity |].
  cbn. rewrite Hf2, Hf1, Hl2, Hl1. cbn.
  split; [| reflexivity].
  by rewrite !insert_insert_eq.
Qed.

Lemma save_to_json_ok (products : list WebScraper.product_dict) (w : world) :
  disk E filename = IoOk ->
  products <> [] ->
  exists w',
    WebScraper.save_to_json E products filename w = (Returned tt, w')
    /\ files w' = <[filename := json_document products]> (files w)
    /\ logged w'
       = logged w ++ [(INFO, Successfully_saved (length products) filename)].
Proof.
  intros Hdisk Hne.
  destruct products as [| p ps]; [done |].
  unfold WebScraper.save_to_json, try_except.
  set (products := p :: ps).
  unfold bind at 1. unfold open_w at 1. rewrite Hdisk. cbn beta iota.
  unfold bind at 1.
  destruct (write_ok (json_dumps (map WebScraper.members_of products)) []
              (set_files (fun fs => <[filename := []]> fs) w) Hdisk)
    as (w1 & Hrun & Hf1 & Hl1 & _).
  { cbn. apply lookup_insert_eq. }
  rewrite Hrun. unfold log. eexists. split; [reflexivity |].
  cbn. rewrite Hf1, Hl1. cbn.
  split; [| reflexivity].
  by rewrite !insert_insert_eq.
Qed.

(** A save that the disk refuses: the error is logged and nothing is
    raised. *)
Lemma save_to_csv_fails (products : list WebScraper.product_dict) (w : world) :
  disk E filename <> IoOk ->
  products <> [] ->
  exists w',
    WebScraper.save_to_csv E products filename w = (Returned tt, w')
    /\ logged w' = logged w ++ [(ERROR, Error_saving_to_CSV OSError)]
    /\ files w'
       = match disk E filename with
         | OpenFails => files w
         | _ => <[filename := []]> (files w)
         end.
Proof.
  intros Hdisk Hne.
  destruct products as [| p ps]; [done |].
  unfold WebScraper.save_to_csv, try_except, bind, open_w, write.
  destruct (disk E filename) eqn:Hd; [done | |];
    (eexists; split; [reflexivity |]; cbn; split; reflexivity).
Qed.

Lemma save_to_json_fails (products : list WebScraper.product_dict) (w : world) :
  disk E filename <> IoOk ->
  products <> [] ->
  exists w',
    WebScraper.save_to_json E products filename w = (Returned tt, w')
    /\ logged w' = logged w ++ [(ERROR, Error_saving_to_JSON OSError)]
    /\ files w'
       = match disk E filename with
         | OpenFails => files w
         | _ => <[filename := []]> (files w)
         end.
Proof.
  intros Hdisk Hne.
  destruct products as [| p ps]; [done |].
  unfold WebScraper.save_to_json, try_except, bind, open_w, write.
  destruct (disk E filename) eqn:Hd; [done | |];
    (eexists; split; [reflexivity |]; cbn; split; reflexivity).
Qed.

Lemma save_to_csv_returns (products : list WebScraper.product_dict)
    (w : world) :
  exists w', WebScraper.save_to_csv E products filename w = (Returned tt, w').
Proof.
  destruct products as [| p ps]; [eexists; reflexivity |].
  destruct (disk E filename) eqn:Hdisk.
  - destruct (save_to_csv_ok (p :: ps) w Hdisk) as (w' & Hrun & _); [done |].
    by exists w'.
  - destruct (save_to_csv_fails (p :: ps) w) as (w' & Hrun & _);
      [congruence | done |]. by exists w'.
  - destruct (save_to_csv_fails (p :: ps) w) as (w' & Hrun & _);
      [congruence | done |]. by exists w'.
Qed.

Lemma save_to_json_returns (products : list WebScraper.product_dict)
    (w : world) :
  exists w', WebScraper.save_to_json E products filename w = (Returned tt, w').
Proof.
  destruct products as [| p ps]; [eexists; reflexivity |].
  destruct (disk E filename) eqn:Hdisk.
  - destruct (save_to_json_ok (p :: ps) w Hdisk) as (w' & Hrun & _); [done |].
    by exists w'.
  - destruct (save_to_json_fails (p :: ps) w) as (w' & Hrun & _);
      [congruence | done |]. by exists w'.
  - destruct (save_to_json_fails (p :: ps) w) as (w' & Hrun & _);
      [congruence | done |]. by exists w'.
Qed.

(** The minimal [save]. *)
Lemma minimal_save_ok (products : list WebScrapper.product_dict) (w : world) :
  disk E filename = IoOk ->
  products <> [] ->
  exists w',
    WebScrapper.save E products filename w = (Returned tt, w')
    /\ files w' = <[filename := csv_document_minimal products]> (files w)
    /\ printed w' = printed w ++ [Data_saved_to filename].
Proof.
  intros Hdisk Hne.
  destruct products as [| p ps]; [done |].
  unfold WebScrapper.save, try_except.
  set (products := p :: ps).
  unfold bind at 1. unfold open_w at 1. rewrite Hdisk. cbn beta iota.
  unfold bind at 1.
  destruct (write_ok (csv_row WebScrapper.fieldnames) []
              (set_files (fun fs => <[filename := []]> fs) w) Hdisk)
    as (w1 & Hrun & Hf1 & _ & Hp1 & _).
  { cbn. apply lookup_insert_eq. }
  rewrite Hrun. unfold bind at 1.
  destruct (minimal_writerows_ok products Hdisk
              ([] ++ csv_row WebScrapper.fieldnames) w1)
    as (w2 & Hrun2 & Hf2 & _ & Hp2 & _).
  { rewrite Hf1. apply lookup_insert_eq. }
  rewrite Hrun2. unfold print. eexists. split; [reflexivity |].
  cbn. rewrite Hf2, Hf1, Hp2, Hp1. cbn.
  split; [| reflexivity].
  by rewrite !insert_insert_eq.
Qed.

Lemma minimal_save_returns (products : list WebScrapper.product_dict)
    (w : world) :
  exists w', WebScrapper.save E products filename w = (Returned tt, w').
Proof.
  destruct products as [| p ps]; [eexists; reflexivity |].
  destruct (disk E filename) eqn:Hdisk.
  - destruct (minimal_save_ok (p :: ps) w Hdisk) as (w' & Hrun & _); [done |].
    by exists w'.
  - unfold WebScrapper.save, try_except, bind, open_w. rewrite Hdisk.
    eexists. reflexivity.
  - unfold WebScrapper.save, try_except, bind, open_w, write. rewrite Hdisk.
    eexists. reflexivity.
Qed.

End SaveFacts.

(** ** Claims on saving *)

(** C8 (as amended). The three savers return nothing ([None]) on every
    path, so their value tells the caller nothing; a completed write and a
    caught I/O failure differ in the line logged, an info line for the one
    and an error line for the other, and neither raises. *)
Theorem save_returns_nothing (E : env)
    (products : list WebScraper.product_dict)
    (rows : list WebScrapper.product_dict) (filename : pystr) (w : world) :
  fst (WebScraper.save_to_csv E products filename w) = Returned tt
  /\ fst (WebScraper.save_to_json E products filename w) = Returned tt
  /\ fst (WebScrapper.save E rows filename w) = Returned tt
  /\ (products <> [] ->
      logged (snd (WebScraper.save_to_csv E products filename w))
      = logged w
        ++ [match disk E filename with
            | IoOk => (INFO, Successfully_saved (length products) filename)
            | _ => (ERROR, Error_saving_to_CSV OSError)
            end]
      /\ logged (snd (WebScraper.save_to_json E products filename w))
         = logged w
           ++ [match disk E filename with
               | IoOk => (INFO, Successfully_saved (length products) filename)
               | _ => (ERROR, Error_saving_to_JSON OSError)
               end]).
Proof.
  split; [| split; [| split]].
  - destruct (save_to_csv_returns E filename products w) as (w' & ->). done.
  - destruct (save_to_json_returns E filename products w) as (w' & ->). done.
  - destruct (minimal_save_returns E filename rows w) as (w' & ->). done.
  - intros Hne. destruct (disk E filename) eqn:Hdisk.
    + destruct (save_to_csv_ok E filename products w Hdisk Hne)
        as (w1 & -> & _ & Hl1).
      destruct (save_to_json_ok E filename products w Hdisk Hne)
        as (w2 & -> & _ & Hl2).
      by split.
    + destruct (save_to_csv_fails E filename products w) as (w1 & -> & Hl1 & _);
        [congruence | done |].
      destruct (save_to_json_fails E filename products w) as (w2 & -> & Hl2 & _);
        [congruence | done |].
      by split.
    + destruct (save_to_csv_fails E filename products w) as (w1 & -> & Hl1 & _);
        [congruence | done |].
      destruct (save_to_json_fails E filename products w) as (w2 & -> & Hl2 & _);
        [congruence | done |].
      by split.
Qed.

(** C8, as stated, fails: a write that completes and a write that the
    disk refuses give the caller the same value. *)
Lemma save_outcome_not_reported_counterexample :
  files (snd (WebScraper.save_to_csv (Fixtures.online Fixtures.blank_page)
                [Fixtures.laptop] (py "products.csv") empty_world))
    !! py "products.csv"
  = Some (csv_document [Fixtures.laptop])
  /\ files (snd (WebScraper.save_to_csv
                   (Fixtures.read_only_disk Fixtures.blank_page)
                   [Fixtures.laptop] (py "products.csv") empty_world))
     !! py "products.csv"
     = None
  /\ fst (WebScraper.save_to_csv (Fixtures.online Fixtures.blank_page)
            [Fixtures.laptop] (py "products.csv") empty_world)
     = fst (WebScraper.save_to_csv
              (Fixtures.read_only_disk Fixtures.blank_page)
              [Fixtures.laptop] (py "products.csv") empty_world).
Proof.
  split; [vm_compute; reflexivity |].
  split; vm_compute; reflexivity.
Qed.

(** ** Claims on the pipeline *)





(** ** File names made from the clock *)

Lemma div10_step (a b : N) :
  (a / 10 = b / 10 -> a mod 10 = b mod 10 -> a = b)%N.
Proof.
  intros Hq Hr.
  rewrite (N.div_mod a 10), (N.div_mod b 10) by done. congruence.
Qed.

Lemma digit_inj (a b : N) : digit a = digit b -> a = b.
Proof. unfold digit. lia. Qed.

Lemma pad2_inj (n m : N) :
  (n < 100)%N -> (m < 100)%N -> pad2 n = pad2 m -> n = m.
Proof.
  intros Hn Hm [= H1 H0].
  apply digit_inj in H1, H0.
  rewrite !N.mod_small in H1 by (apply N.Div0.div_lt_upper_bound; lia).
  by apply div10_step.
Qed.

Lemma pad4_inj (n m : N) :
  (n < 10000)%N -> (m < 10000)%N -> pad4 n = pad4 m -> n = m.
Proof.
  intros Hn Hm [= H3 H2 H1 H0].
  apply digit_inj in H3, H2, H1, H0.
  rewrite !N.mod_small in H3 by (apply N.Div0.div_lt_upper_bound; lia).
  apply div10_step; [| exact H0].
  apply div10_step; [| exact H1].
  rewrite !N.Div0.div_div. change (10 * 10)%N with 100%N.
  apply div10_step; [| exact H2].
  rewrite !N.Div0.div_div. exact H3.
Qed.

Lemma strftime_file_length (t : datetime) : length (strftime_file t) = 15%nat.
Proof. reflexivity. Qed.

Lemma strftime_file_inj (t1 t2 : datetime) :
  valid_datetime t1 -> valid_datetime t2 ->
  strftime_file t1 = strftime_file t2 ->
  to_the_second t1 = to_the_second t2.
Proof.
  intros (Hy1 & Hm1 & Hd1 & HH1 & HM1 & HS1 & _)
         (Hy2 & Hm2 & Hd2 & HH2 & HM2 & HS2 & _) Heq.
  unfold strftime_file in Heq.
  change (py "_") with [95%N] in Heq.
  apply app_inj_1 in Heq as [Hy Heq]; [| reflexivity].
  apply app_inj_1 in Heq as [Hm Heq]; [| reflexivity].
  apply app_inj_1 in Heq as [Hd Heq]; [| reflexivity].
  apply app_inj_1 in Heq as [_ Heq]; [| reflexivity].
  apply app_inj_1 in Heq as [HH Heq]; [| reflexivity].
  apply app_inj_1 in Heq as [HM HS]; [| reflexivity].
  apply pad4_inj in Hy; [| lia | lia].
  apply pad2_inj in Hm; [| lia | lia].
  apply pad2_inj in Hd; [| lia | lia].
  apply pad2_inj in HH; [| lia | lia].
  apply pad2_inj in HM; [| lia | lia].
  apply pad2_inj in HS; [| lia | lia].
  unfold to_the_second. congruence.
Qed.

Lemma auto_filename_inj (q1 q2 : pystr) (t1 t2 : datetime) :
  WebScraper.auto_filename q1 t1 = WebScraper.auto_filename q2 t2 ->
  strftime_file t1 = strftime_file t2.
Proof.
  unfold WebScraper.auto_filename. intros Heq.
  rewrite !app_assoc in Heq.
  apply app_inj_2 in Heq as [_ Heq]; [exact Heq |].
  by rewrite !strftime_file_length.
Qed.

(** An auto-named run that fetches a page with products writes them to
    the file named after the query and the clock. *)
Lemma scrape_auto_named (E : env) (self : WebScraper.scraper)
    (search_query output_format html : pystr) (w w1 w2 : world)
    (products : list WebScraper.product_dict) :
  let url :=
    WebScraper.base_url self ++ py "?q=" ++ replace 32 43 search_query in
  let json := bool_decide (lower output_format = py "json") in
  let name :=
    WebScraper.auto_filename search_query (now E (clock_reads w2))
    ++ (if json then py ".json" else py ".csv") in
  WebScraper.fetch E self url
    (set_logged (fun ls => ls ++ [(INFO, Starting_scrape search_query)]) w)
  = (Returned (Some html), w1) ->
  html <> [] ->
  WebScraper.extract_products E html w1 = (Returned products, w2) ->
  products <> [] ->
  disk E name = IoOk ->
  exists w',
    WebScraper.scrape E self search_query output_format None w
    = (Returned tt, w')
    /\ files w'
       = <[name := if json then json_document products
                   else csv_document products]> (files w2).
Proof.
  intros url json name Hfetch Hhtml Hextract Hproducts Hdisk.
  unfold WebScraper.scrape. fold url.
  unfold bind at 1, log at 1. cbn beta iota.
  unfold bind at 1. rewrite Hfetch.
  destruct html as [| c html]; [done |].
  unfold bind at 1. rewrite Hextract.
  destruct products as [| p ps]; [done |].
  unfold bind at 1. unfold bind at 1, datetime_now, ret. cbn beta iota.
  unfold bind at 1. fold json. subst name. destruct json.
  - destruct (save_to_json_ok E _ (p :: ps) (set_clock_reads S w2) Hdisk)
      as (w3 & -> & Hfiles & _); [done |].
    unfold log. eexists. split; [reflexivity |]. cbn. by rewrite Hfiles.
  - destruct (save_to_csv_ok E _ (p :: ps) (set_clock_reads S w2) Hdisk)
      as (w3 & -> & Hfiles & _); [done |].
    unfold log. eexists. split; [reflexivity |]. cbn. by rewrite Hfiles.
Qed.

(** C9 (as amended). An auto-named run writes to "flipkart_", the query
    with its spaces replaced by "_", "_" and the time of the clock as
    '%Y%m%d_%H%M%S', with the extension of the format; the names of two
    such runs differ whenever the two times differ in a field down to the
    second, whatever the queries. *)
Theorem auto_filename_differs_by_second (E : env) (self : WebScraper.scraper)
    (search_query output_format : pystr) (w : world) :
  (forall (html : pystr) (w1 w2 : world)
          (products : list WebScraper.product_dict),
     let url :=
       WebScraper.base_url self ++ py "?q=" ++ replace 32 43 search_query in
     let json := bool_decide (lower output_format = py "json") in
     let name :=
       (py "flipkart_" ++ replace 32 95 search_query ++ py "_"
        ++ strftime_file (now E (clock_reads w2)))
       ++ (if json then py ".json" else py ".csv") in
     WebScraper.fetch E self url
       (set_logged (fun ls => ls ++ [(INFO, Starting_scrape search_query)]) w)
     = (Returned (Some html), w1) ->
     html <> [] ->
     WebScraper.extract_products E html w1 = (Returned products, w2) ->
     products <> [] ->
     disk E name = IoOk ->
     exists w',
       WebScraper.scrape E self search_query output_format None w
       = (Returned tt, w')
       /\ files w'
          = <[name := if json then json_document products
                      else csv_document products]> (files w2))
  /\ (forall (q1 q2 : pystr) (t1 t2 : datetime),
        valid_datetime t1 -> valid_datetime t2 ->
        to_the_second t1 <> to_the_second t2 ->
        WebScraper.auto_filename q1 t1 <> WebScraper.auto_filename q2 t2).
Proof.
  split.
  - intros html w1 w2 products url json name.
    apply (scrape_auto_named E self search_query output_format html w w1 w2
             products).
  - intros q1 q2 t1 t2 Hv1 Hv2 Hne Heq. apply Hne.
    apply strftime_file_inj; [exact Hv1 | exact Hv2 |].
    by apply (auto_filename_inj q1 q2).
Qed.

Lemma auto_filename_differs_by_second_witness :
  (exists w',
     WebScraper.scrape Fixtures.same_second Fixtures.default_scraper
       (py "laptops") (py "csv") None empty_world
     = (Returned tt, w')
     /\ files w'
        = <[py "flipkart_laptops_20240517_120000.csv" :=
              csv_document Fixtures.first_products]>
            (files Fixtures.first_extract))
  /\ WebScraper.auto_filename (py "laptops") Fixtures.noon
     <> WebScraper.auto_filename (py "laptops")
          {| year := 2024; month := 5; day := 17;
             hour := 12; minute := 0; second := 1; microsecond := 0 |}.
Proof.
  destruct (auto_filename_differs_by_second Fixtures.same_second
              Fixtures.default_scraper (py "laptops") (py "csv") empty_world)
    as [Hscrape Hnames].
  split.
  - apply (Hscrape Fixtures.page Fixtures.first_fetch Fixtures.first_extract
             Fixtures.first_products).
    + vm_compute. reflexivity.
    + discriminate.
    + vm_compute. reflexivity.
    + vm_compute. discriminate.
    + reflexivity.
  - apply Hnames.
    + unfold valid_datetime. simpl. lia.
    + unfold valid_datetime. simpl. lia.
    + unfold to_the_second. simpl. congruence.
Defined.

(** C9, as stated, fails: two auto-named runs of one query within the same
    second get the same name, and the second run overwrites the file of
    the first. *)
Lemma same_second_overwrites_counterexample :
  let name := py "flipkart_laptops_20240517_120000.csv" in
  let w1 := Fixtures.after_scrape empty_world in
  let w2 := Fixtures.after_scrape w1 in
  now Fixtures.same_second 1 <> now Fixtures.same_second 3
  /\ WebScraper.auto_filename (py "laptops") (now Fixtures.same_second 1)
     = WebScraper.auto_filename (py "laptops") (now Fixtures.same_second 3)
  /\ (exists first_output second_output,
        files w1 !! name = Some first_output
        /\ files w2 !! name = Some second_output
        /\ first_output <> second_output
        /\ size (files w2) = 1%nat).
Proof.
  intros name w1 w2.
  split; [vm_compute; discriminate |].
  split; [vm_compute; reflexivity |].
  eexists. eexists.
  split; [vm_compute; reflexivity |].
  split; [vm_compute; reflexivity |].
  split; [vm_compute; discriminate |].
  vm_compute; reflexivity.
Qed.

(** ** JSON: what [json.loads] reads from what [json.dump] wrote *)






















(** ** CSV: what [csv.reader] reads from what [csv.writer] wrote *)














(** ** Claim on the round trip *)





(** ** The scenarios of the specification *)

(** Three containers, the second without a rating: three records in the
    order of the page, the rating of the second "N/A". *)
Example three_cards_scenario :
  exists p1 p2 p3,
    fst (WebScraper.extract_products (Fixtures.online Fixtures.three_cards)
           Fixtures.page empty_world)
    = Returned [p1; p2; p3]
    /\ WebScraper.Name p1 = py "Laptop A"
    /\ WebScraper.Rating p1 = py "4.5"
    /\ WebScraper.Name p2 = py "Laptop B"
    /\ WebScraper.Rating p2 = py "N/A"
    /\ WebScraper.Link p2 = py "https://www.flipkart.com/p/itm2"
    /\ WebScraper.Name p3 = py "Laptop C"
    /\ WebScraper.Link p3 = py "N/A".
Proof.
  do 3 eexists. split; [vm_compute; reflexivity |].
  repeat split; vm_compute; reflexivity.
Qed.

(** What the awkward record looks like on disk and back. *)
Example awkward_record_scenario :
  json_loads (json_document [Fixtures.awkward])
  = Some [WebScraper.members_of Fixtures.awkward]
  /\ csv_DictReader (csv_document [Fixtures.awkward])
     = Some [WebScraper.members_of Fixtures.awkward].
Proof. split; vm_compute; reflexivity. Qed.

(** * Further properties of the two programs *)

Import Cli Reading.

(** ** [WebScraper.fetch] over any network *)










(** ** A negative delay *)




(** ** What the savers leave alone *)

Section SaveFrame.
Variable E : env.
Variable filename : pystr.



Lemma minimal_save_frame (products : list WebScrapper.product_dict)
    (w : world) :
  exists w',
    WebScrapper.save E products filename w = (Returned tt, w')
    /\ touches_only filename w w'.
Proof.
  unfold touches_only.
  destruct products as [| p ps]; [eexists; split; [reflexivity | done] |].
  destruct (disk E filename) eqn:Hdisk.
  - unfold WebScrapper.save, try_except.
    unfold bind at 1. unfold open_w at 1. rewrite Hdisk. cbn beta iota.
    unfold bind at 1.
    destruct (write_ok E filename (csv_row WebScrapper.fieldnames) []
                (set_files (fun fs => <[filename := []]> fs) w) Hdisk)
      as (w1 & Hrun & Hf1 & _ & _ & Hs1 & Hr1 & Hc1).
    { cbn. apply lookup_insert_eq. }
    rewrite Hrun. unfold bind at 1.
    destruct (minimal_writerows_ok E filename (p :: ps) Hdisk
                ([] ++ csv_row WebScrapper.fieldnames) w1)
      as (w2 & Hrun2 & Hf2 & _ & _ & Hs2 & Hr2 & Hc2).
    { rewrite Hf1. apply lookup_insert_eq. }
    rewrite Hrun2. unfold print. eexists. split; [reflexivity |].
    cbn in Hs1, Hr1, Hc1.
    cbn [slept requested clock_reads files set_printed].
    split; [congruence |]. split; [congruence |]. split; [congruence |].
    intros g Hg. rewrite Hf2, Hf1. cbn.
    by rewrite !lookup_insert_ne.
  - unfold WebScrapper.save, try_except, bind, open_w. rewrite Hdisk.
    eexists. split; [reflexivity | done].
  - unfold WebScrapper.save, try_except, bind, open_w, write.
    rewrite Hdisk. eexists. split; [reflexivity |]. cbn.
    split; [reflexivity |]. split; [reflexivity |]. split; [reflexivity |].
    intros g Hg. by rewrite lookup_insert_ne.
Qed.

End SaveFrame.

(** ** The stages of [WebScraper.scrape] *)

Section ScrapeStages.
Variable E : env.
Variable self : WebScraper.scraper.
Variables search_query output_format : pystr.
Variable output_filename : option pystr.

Local Abbreviation url :=
  (WebScraper.base_url self ++ py "?q=" ++ replace 32 43 search_query).
Local Abbreviation started w :=
  (set_logged (fun ls => ls ++ [(INFO, Starting_scrape search_query)]) w).




End ScrapeStages.

(** ** What [scrape] does with what it fetched *)














(** ** What every record of [extract_products] looks like *)








(** ** Which elements the selectors of the two programs pick *)

Lemma tokens_from_are_words (s : pystr) :
  forall cur : pystr,
    Forall (fun c => isspace c = false) cur ->
    Forall (fun t => t <> [] /\ Forall (fun c => isspace c = false) t)
           (tokens_from cur s).
Proof.
  induction s as [| c s IH]; intros cur Hcur.
  - cbn. destruct cur as [| x cur]; [constructor |].
    constructor; [| constructor]. split.
    + intros Hrev. apply (f_equal (@length N)) in Hrev.
      rewrite length_rev in Hrev. discriminate.
    + by apply Forall_rev.
  - cbn [tokens_from]. destruct (isspace c) eqn:Hc.
    + destruct cur as [| x cur]; [apply IH; constructor |].
      constructor; [| apply IH; constructor]. split.
      * intros Hrev. apply (f_equal (@length N)) in Hrev.
        rewrite length_rev in Hrev. discriminate.
      * by apply Forall_rev.
    + apply IH. by constructor.
Qed.

Lemma tokens_are_words (v : pystr) :
  Forall (fun t => t <> [] /\ Forall (fun c => isspace c = false) t)
         (tokens v).
Proof. apply tokens_from_are_words. constructor. Qed.

Lemma join_cons (sep x : pystr) (l : list pystr) :
  join sep (x :: l)
  = x ++ match l with [] => [] | _ => sep ++ join sep l end.
Proof. destruct l; cbn; [by rewrite app_nil_r | reflexivity]. Qed.

(** A word is read off the front of a text up to the first space. *)
Lemma word_prefix_unique (x : pystr) :
  forall (y r1 r2 : pystr),
    Forall (fun c => isspace c = false) x ->
    Forall (fun c => isspace c = false) y ->
    (r1 = [] \/ exists t, r1 = 32%N :: t) ->
    (r2 = [] \/ exists t, r2 = 32%N :: t) ->
    x ++ r1 = y ++ r2 -> x = y /\ r1 = r2.
Proof.
  induction x as [| a x IH]; intros y r1 r2 Hx Hy Hr1 Hr2 Heq.
  - destruct y as [| b y]; [done |]. cbn in Heq.
    apply Forall_cons in Hy as [Hb _].
    destruct Hr1 as [Hr1 | [t Hr1]]; rewrite Hr1 in Heq; [discriminate Heq |].
    injection Heq as Hb32 _. rewrite <- Hb32 in Hb.
    vm_compute in Hb. discriminate Hb.
  - destruct y as [| b y]; cbn in Heq.
    + apply Forall_cons in Hx as [Ha _].
      destruct Hr2 as [Hr2 | [t Hr2]]; rewrite Hr2 in Heq; [discriminate Heq |].
      injection Heq as Ha32 _. rewrite Ha32 in Ha.
      vm_compute in Ha. discriminate Ha.
    + injection Heq as -> Heq.
      apply Forall_cons in Hx as [_ Hx]. apply Forall_cons in Hy as [_ Hy].
      destruct (IH y r1 r2 Hx Hy Hr1 Hr2 Heq) as [-> ->]. done.
Qed.

Lemma join_words_inj (l1 : list pystr) :
  forall l2 : list pystr,
    Forall (fun t => t <> [] /\ Forall (fun c => isspace c = false) t) l1 ->
    Forall (fun t => t <> [] /\ Forall (fun c => isspace c = false) t) l2 ->
    join [32%N] l1 = join [32%N] l2 -> l1 = l2.
Proof.
  induction l1 as [| x l1 IH]; intros l2 H1 H2 Heq.
  - destruct l2 as [| y l2]; [done |].
    inversion H2 as [| ? ? [Hy _] _]; subst.
    rewrite join_cons in Heq. cbn in Heq. by destruct y.
  - destruct l2 as [| y l2].
    + inversion H1 as [| ? ? [Hx _] _]; subst.
      rewrite join_cons in Heq. cbn in Heq. by destruct x.
    + inversion H1 as [| ? ? [_ Hx] H1']; subst.
      inversion H2 as [| ? ? [_ Hy] H2']; subst.
      rewrite !join_cons in Heq.
      apply word_prefix_unique in Heq as [-> Hrest]; [| done | done | |].
      * f_equal. destruct l1 as [| x1 l1], l2 as [| y1 l2];
          [done | discriminate | discriminate |].
        cbn [app] in Hrest. injection Hrest as Hrest. by apply IH.
      * destruct l1; [by left | right; eexists; reflexivity].
      * destruct l2; [by left | right; eexists; reflexivity].
Qed.

(** A selector of one class picks the elements that have the class. *)
Lemma class_matches_word (v cls : pystr) :
  cls <> [] -> Forall (fun c => isspace c = false) cls ->
  class_matches (Some v) cls = true <-> In cls (tokens v).
Proof.
  intros Hne Hcls. unfold class_matches. rewrite orb_true_iff. split.
  - intros [Hex | Hjoin].
    + apply existsb_exists in Hex as (t & Ht & Heq).
      apply bool_decide_eq_true in Heq. by subst.
    + apply bool_decide_eq_true in Hjoin.
      assert (Htok : tokens v = [cls]).
      { apply join_words_inj; [apply tokens_are_words | | exact Hjoin].
        constructor; [done | constructor]. }
      rewrite Htok. by left.
  - intros Hin. left. apply existsb_exists. exists cls.
    split; [exact Hin | by apply bool_decide_eq_true].
Qed.

(** The selector of the price, two classes in one string, picks the
    elements whose classes are those two, in that order, and no other. *)
Lemma class_matches_price (v : pystr) :
  class_matches (Some v) (py "Nx9bqj _4b5DiR") = true
  <-> tokens v = [py "Nx9bqj"; py "_4b5DiR"].
Proof.
  assert (Hwords :
            Forall (fun t => t <> [] /\ Forall (fun c => isspace c = false) t)
                   [py "Nx9bqj"; py "_4b5DiR"]).
  { repeat constructor; discriminate. }
  unfold class_matches. rewrite orb_true_iff. split.
  - intros [Hex | Hjoin].
    + apply existsb_exists in Hex as (t & Ht & Heq).
      apply bool_decide_eq_true in Heq. subst t.
      pose proof (tokens_are_words v) as Hall.
      rewrite Forall_forall in Hall.
      apply list_elem_of_In in Ht. destruct (Hall _ Ht) as [_ Hfree].
      rewrite Forall_forall in Hfree.
      assert (Hspace : isspace 32 = false);
        [| vm_compute in Hspace; discriminate].
      apply Hfree. apply list_elem_of_In. vm_compute. tauto.
    + apply bool_decide_eq_true in Hjoin.
      apply join_words_inj; [apply tokens_are_words | exact Hwords |].
      exact Hjoin.
  - intros ->. right. by apply bool_decide_eq_true.
Qed.

(** X10. Under bs4's matching of the [class] attribute, the selectors of
    one class ('tUxRFH', 'KzDlHZ', 'XQDdHH', 'CGtC98') pick every element
    of the right tag that has the class among its classes, whereas the
    selector of the price, 'Nx9bqj _4b5DiR', picks only a [div] whose
    classes are exactly these two in this order: one class more, or the
    two swapped, and the price is not found. *)
Theorem selectors_pick (nm : pystr) (attrs : gmap pystr pystr)
    (contents : list node) :
  (forall name cls : pystr,
     cls <> [] -> Forall (fun c => isspace c = false) cls ->
     matches name cls (Tag nm attrs contents) = true
     <-> nm = name
         /\ exists v, attrs !! py "class" = Some v /\ In cls (tokens v))
  /\ (matches (py "div") (py "Nx9bqj _4b5DiR") (Tag nm attrs contents) = true
      <-> nm = py "div"
          /\ exists v,
               attrs !! py "class" = Some v
               /\ tokens v = [py "Nx9bqj"; py "_4b5DiR"]).
Proof.
  split.
  - intros name cls Hne Hcls. unfold matches.
    rewrite andb_true_iff, bool_decide_eq_true. split.
    + intros [-> Hclass]. split; [done |].
      destruct (attrs !! py "class") as [v |]; [| discriminate].
      exists v. split; [done |]. by apply class_matches_word.
    + intros [-> (v & -> & Hin)]. split; [done |].
      by apply class_matches_word.
  - unfold matches. rewrite andb_true_iff, bool_decide_eq_true. split.
    + intros [-> Hclass]. split; [done |].
      destruct (attrs !! py "class") as [v |]; [| discriminate].
      exists v. split; [done |]. by apply class_matches_price.
    + intros [-> (v & -> & Htok)]. split; [done |].
      by apply class_matches_price.
Qed.

(** A price [div] with one class more is not picked, and the record gets
    "N/A" for its price. *)
Example price_with_a_third_class :
  let price := Tag (py "div") {[ py "class" := py "Nx9bqj _4b5DiR sale" ]}
                   [NavigableString (py "Rs 1")] in
  matches (py "div") (py "Nx9bqj _4b5DiR") price = false
  /\ matches (py "div") (py "Nx9bqj") price = true
  /\ text_or_NA (find (Fixtures.card [Fixtures.name_div "Laptop"; price])
                      (py "div") (py "Nx9bqj _4b5DiR")) = py "N/A".
Proof. repeat split; vm_compute; reflexivity. Qed.

(** ** The minimal variant as a whole *)

Lemma complete_true (c : node) :
  complete c = true
  <-> is_Some (find c (py "div") (py "KzDlHZ"))
      /\ is_Some (find c (py "div") (py "Nx9bqj _4b5DiR"))
      /\ is_Some (find c (py "div") (py "XQDdHH")).
Proof.
  unfold complete.
  destruct (find c (py "div") (py "KzDlHZ")),
           (find c (py "div") (py "Nx9bqj _4b5DiR")),
           (find c (py "div") (py "XQDdHH"));
    (split;
     [ first [ discriminate | intros _; repeat split; eexists; reflexivity ]
     | first [ intros _; reflexivity
             | intros ([x1 H1] & [x2 H2] & [x3 H3]);
               first [ discriminate H1 | discriminate H2 | discriminate H3 ] ] ]).
Qed.

Lemma minimal_product_data_incomplete (c : node) (w : world) :
  complete c = false ->
  WebScrapper.product_data c w = (Raised AttributeError, w).
Proof.
  unfold complete, WebScrapper.product_data, bind, WebScrapper.text_of.
  destruct (find c (py "div") (py "KzDlHZ")); [| reflexivity].
  destruct (find c (py "div") (py "Nx9bqj _4b5DiR")); [| reflexivity].
  destruct (find c (py "div") (py "XQDdHH")); [discriminate | reflexivity].
Qed.

Lemma minimal_product_data_complete (c : node) (w : world) :
  complete c = true ->
  exists d, WebScrapper.product_data c w = (Returned d, w).
Proof.
  intros Hc. apply complete_true in Hc as ([n Hn] & [p Hp] & [r Hr]).
  eexists. by apply (minimal_product_data_present c n p r).
Qed.

Lemma minimal_extract_loop_incomplete (pl : list node) :
  forallb complete pl = false ->
  forall (products : list WebScrapper.product_dict) (w : world),
    WebScrapper.extract_loop pl products w = (Raised AttributeError, w).
Proof.
  induction pl as [| c cs IH]; [discriminate |].
  intros Hall products w. cbn [forallb] in Hall.
  cbn [WebScrapper.extract_loop]. unfold bind at 1.
  destruct (complete c) eqn:Hc.
  - destruct (minimal_product_data_complete c w Hc) as [d ->].
    by apply IH.
  - by rewrite (minimal_product_data_incomplete c w Hc).
Qed.

Lemma minimal_extract_loop_complete (pl : list node) :
  forallb complete pl = true ->
  forall (products : list WebScrapper.product_dict) (w : world),
  exists found,
    WebScrapper.extract_loop pl products w = (Returned (products ++ found), w)
    /\ Forall2 (fun c d =>
          Some (WebScrapper.Name d)
          = (fun e => strip (text e)) <$> find c (py "div") (py "KzDlHZ")
          /\ Some (WebScrapper.Price d)
             = (fun e => strip (text e))
               <$> find c (py "div") (py "Nx9bqj _4b5DiR")
          /\ Some (WebScrapper.Rating d)
             = (fun e => strip (text e)) <$> find c (py "div") (py "XQDdHH"))
         pl found.
Proof.
  intros Hall. apply minimal_extract_loop_present.
  apply Forall_forall. intros c Hc. apply complete_true.
  rewrite forallb_forall in Hall. apply Hall. by apply list_elem_of_In.
Qed.






Lemma minimal_fetch_fails (E : env) (url : pystr) (e : exn) (w : world) :
  request_exception (net E (length (requested w)) url) = Some e ->
  exists w',
    WebScrapper.fetch E url w = (Raised e, w')
    /\ files w' = files w /\ printed w' = printed w
    /\ requested w' = requested w ++ [url].
Proof.
  unfold request_exception, WebScrapper.fetch, bind, get, sleep,
    raise_for_status.
  destruct (net E (length (requested w)) url) as [x | r].
  - intros [= <-]. eexists. split; [reflexivity | done].
  - destruct (is_error_status (status_code r)); [| discriminate].
    intros [= <-]. cbn. eexists. split; [reflexivity | done].
Qed.

Lemma minimal_fetch_succeeds (E : env) (url : pystr) (r : response)
    (w : world) :
  net E (length (requested w)) url = GetResponse r ->
  is_error_status (status_code r) = false ->
  exists w',
    WebScrapper.fetch E url w = (Returned (response_text r), w')
    /\ files w' = files w /\ printed w' = printed w
    /\ requested w' = requested w ++ [url]
    /\ slept w' = slept w ++ [2].
Proof.
  intros Hnet Hok.
  unfold WebScrapper.fetch, bind, get, sleep, raise_for_status.
  rewrite Hnet, Hok. cbn. eexists. split; [reflexivity | done].
Qed.

Lemma minimal_extract_pure (E : env) (html : pystr) (w : world) :
  snd (WebScrapper.extract E html w) = w.
Proof.
  unfold WebScrapper.extract.
  destruct (forallb complete
              (find_all (html_parser E html) (py "div") (py "tUxRFH")))
    eqn:Hall.
  - destruct (minimal_extract_loop_complete _ Hall [] w) as (found & -> & _).
    reflexivity.
  - by rewrite minimal_extract_loop_incomplete.
Qed.

Lemma minimal_main_start (E : env) (w : world) :
  WebScrapper.main E w
  = (let* html :=
       WebScrapper.fetch E (py "https://www.flipkart.com/search?q=laptops") in
     print Extracting_product_details >>
     let* products := WebScrapper.extract E html in
     match products with
     | [] => print No_products_found
     | _ =>
         print (Found_products_Saving_to_CSV (length products)) >>
         WebScrapper.save E products WebScrapper.default_filename
     end)
      (set_printed (fun ls => ls ++ [Fetching_data_from_Flipkart]) w).
Proof. reflexivity. Qed.

(** X11. The runs of the minimal [main] that write nothing. When the GET
    raises or is answered 4xx or 5xx, [main] ends in that exception having
    printed its first line only. When the page has a container that lacks
    a sub-element, [main] ends in [AttributeError] after its second line.
    When the page has no container, [main] prints "No products found" and
    returns. In all three no file is changed. *)
Theorem minimal_main_without_output (E : env) (w : world) :
  let url := py "https://www.flipkart.com/search?q=laptops" in
  let outcome := net E (length (requested w)) url in
  (forall e,
     request_exception outcome = Some e ->
     exists w',
       WebScrapper.main E w = (Raised e, w')
       /\ printed w' = printed w ++ [Fetching_data_from_Flipkart]
       /\ files w' = files w)
  /\ (forall r,
        outcome = GetResponse r ->
        is_error_status (status_code r) = false ->
        let containers :=
          find_all (html_parser E (response_text r)) (py "div") (py "tUxRFH") in
        (forallb complete containers = false ->
         exists w',
           WebScrapper.main E w = (Raised AttributeError, w')
           /\ printed w'
              = printed w
                ++ [Fetching_data_from_Flipkart; Extracting_product_details]
           /\ files w' = files w)
        /\ (containers = [] ->
            exists w',
              WebScrapper.main E w = (Returned tt, w')
              /\ printed w'
                 = printed w
                   ++ [Fetching_data_from_Flipkart; Extracting_product_details;
                       No_products_found]
              /\ files w' = files w)).
Proof.
  intros url outcome. split.
  - intros e He.
    destruct (minimal_fetch_fails E url e
                (set_printed (fun ls => ls ++ [Fetching_data_from_Flipkart]) w)
                He)
      as (w1 & Hfetch & Hfiles & Hprinted & _).
    exists w1. split; [| by split].
    rewrite minimal_main_start. fold url. unfold bind at 1.
    by rewrite Hfetch.
  - intros r Hnet Hok containers.
    destruct (minimal_fetch_succeeds E url r
                (set_printed (fun ls => ls ++ [Fetching_data_from_Flipkart]) w)
                Hnet Hok)
      as (w1 & Hfetch & Hfiles & Hprinted & _).
    assert (Hmain : forall res,
               WebScrapper.extract E (response_text r)
                 (set_printed (fun ls => ls ++ [Extracting_product_details]) w1)
               = (res,
                  set_printed (fun ls => ls ++ [Extracting_product_details]) w1)
               ->
               WebScrapper.main E w
               = match res with
                 | Returned [] =>
                     print No_products_found
                       (set_printed
                          (fun ls => ls ++ [Extracting_product_details]) w1)
                 | Returned products =>
                     (print (Found_products_Saving_to_CSV (length products)) >>
                      WebScrapper.save E products WebScrapper.default_filename)
                       (set_printed
                          (fun ls => ls ++ [Extracting_product_details]) w1)
                 | Raised e =>
                     (Raised e,
                      set_printed
                        (fun ls => ls ++ [Extracting_product_details]) w1)
                 end).
    { intros res Hextract.
      rewrite minimal_main_start. fold url. unfold bind at 1.
      rewrite Hfetch.
      unfold bind at 1, print at 1. cbn beta iota.
      unfold bind at 1. rewrite Hextract.
      destruct res as [[| p ps] | e]; reflexivity. }
    split.
    + intros Hinc. eexists. split.
      * apply (Hmain (Raised AttributeError)).
        unfold WebScrapper.extract. fold containers.
        by apply minimal_extract_loop_incomplete.
      * cbn. rewrite Hprinted, Hfiles. cbn. by rewrite <- app_assoc.
    + intros Hnone. eexists. split.
      * rewrite (Hmain (Returned [])); [reflexivity |].
        unfold WebScrapper.extract. fold containers. by rewrite Hnone.
      * cbn. rewrite Hprinted, Hfiles. cbn. by rewrite <- !app_assoc.
Qed.

(** X14. Whatever the network, the page and the disk do, the minimal
    [main] creates or changes no file other than
    [flipkart_products.csv]: every run writes to that one name. *)
Theorem minimal_main_touches_one_file (E : env) (w : world) (g : pystr) :
  g <> WebScrapper.default_filename ->
  files (snd (WebScrapper.main E w)) !! g = files w !! g.
Proof.
  intros Hg.
  set (url := py "https://www.flipkart.com/search?q=laptops").
  set (w0 := set_printed (fun ls => ls ++ [Fetching_data_from_Flipkart]) w).
  rewrite minimal_main_start. fold url. fold w0.
  destruct (request_exception (net E (length (requested w0)) url)) as [e |]
    eqn:Hout.
  - destruct (minimal_fetch_fails E url e w0 Hout) as (w1 & Hfetch & Hfiles & _).
    unfold bind at 1. rewrite Hfetch. cbn. by rewrite Hfiles.
  - unfold request_exception in Hout.
    destruct (net E (length (requested w0)) url) as [x | r] eqn:Hnet;
      [discriminate |].
    destruct (is_error_status (status_code r)) eqn:Hok; [discriminate |].
    destruct (minimal_fetch_succeeds E url r w0 Hnet Hok)
      as (w1 & Hfetch & Hfiles & _).
    unfold bind at 1. rewrite Hfetch.
    unfold bind at 1, print at 1. cbn beta iota.
    set (w2 := set_printed (fun ls => ls ++ [Extracting_product_details]) w1).
    pose proof (minimal_extract_pure E (response_text r) w2) as Hpure.
    unfold bind at 1.
    destruct (WebScrapper.extract E (response_text r) w2) as [[products | e] w3].
    + cbn in Hpure. subst w3.
      destruct products as [| p ps]; [cbn; by rewrite Hfiles |].
      unfold bind, print.
      destruct (minimal_save_frame E WebScrapper.default_filename (p :: ps)
                  (set_printed
                     (fun ls => ls ++ [Found_products_Saving_to_CSV (length (p :: ps))])
                     w2))
        as (w4 & -> & _ & _ & _ & Hframe).
      cbn [snd]. rewrite (Hframe g Hg). cbn. by rewrite Hfiles.
    + cbn in Hpure. subst w3. cbn. by rewrite Hfiles.
Qed.

Lemma minimal_main_touches_one_file_witness :
  files (snd (WebScrapper.main (Fixtures.online Fixtures.three_cards)
                Fixtures.earlier_run)) !! py "products.json"
  = files Fixtures.earlier_run !! py "products.json".
Proof.
  apply (minimal_main_touches_one_file (Fixtures.online Fixtures.three_cards)
           Fixtures.earlier_run (py "products.json")).
  discriminate.
Defined.




(** *** The command line *)

(** X16. [--verbose] changes nothing. [main] sets the root logger to
    DEBUG before [WebScraper.__init__] runs [basicConfig], which finds no
    handler and sets the level back to INFO; the records that reach the
    handlers are those of level INFO and above, with and without the
    flag. *)
Theorem verbose_is_overridden (args : namespace)
    (calls : list (level * message)) :
  root_level (main_logging args) = INFO
  /\ emitted (main_logging args) calls
     = List.filter
         (fun call => match fst call with DEBUG => false | _ => true end)
         calls
  /\ (has_handlers (main_logging args) = true
      /\ setup_logging (main_logging args) = main_logging args).
Proof.
  assert (Hcfg : main_logging args
                 = {| root_level := INFO; has_handlers := true |})
    by (unfold main_logging; destruct (verbose args); reflexivity).
  rewrite Hcfg. split; [reflexivity |]. split; [| by split].
  unfold emitted. induction calls as [| [l m] calls IH]; [reflexivity |].
  cbn [List.filter]. rewrite IH. by destruct l.
Qed.




(** *** File names and failed writes *)

Lemma replace_no_source (a b : N) (s : pystr) :
  a <> b -> Forall (fun c => c <> a) (replace a b s).
Proof.
  intros Hab. unfold replace. apply List.Forall_map, Forall_true.
  intros c. destruct (N.eqb_spec c a); congruence.
Qed.

Lemma replace_idempotent (a b : N) (s : pystr) :
  a <> b -> replace a b (replace a b s) = replace a b s.
Proof.
  intros Hab. unfold replace. rewrite map_map. apply map_ext.
  intros c. destruct (N.eqb_spec c a) as [-> | Hc].
  - destruct (N.eqb_spec b a); congruence.
  - destruct (N.eqb_spec c a); congruence.
Qed.

Lemma strftime_file_to_the_second (t1 t2 : datetime) :
  to_the_second t1 = to_the_second t2 -> strftime_file t1 = strftime_file t2.
Proof.
  unfold to_the_second, strftime_file. intros [= -> -> -> -> -> ->].
  reflexivity.
Qed.

Lemma strftime_file_no_space (t : datetime) :
  Forall (fun c => c <> 32%N) (strftime_file t).
Proof.
  assert (Hdigit : forall d, digit d <> 32%N) by (unfold digit; lia).
  unfold strftime_file, pad4, pad2.
  change (py "_") with [95%N]. cbn [app].
  repeat (apply Forall_cons; split; [first [apply Hdigit | discriminate] |]).
  apply Forall_nil_2.
Qed.

(** X18. The names [scrape] makes up. For times a [datetime] can hold, two
    made-up names are equal exactly when the two queries are equal after
    their spaces are replaced by "_" and the two times agree down to the
    second: a query with a space and the same query with "_" in its place
    get one name. No made-up name has a space in it. *)
Theorem auto_filename_coincides (q1 q2 : pystr) (t1 t2 : datetime) :
  valid_datetime t1 -> valid_datetime t2 ->
  (WebScraper.auto_filename q1 t1 = WebScraper.auto_filename q2 t2
   <-> replace 32 95 q1 = replace 32 95 q2
       /\ to_the_second t1 = to_the_second t2)
  /\ WebScraper.auto_filename (replace 32 95 q1) t1
     = WebScraper.auto_filename q1 t1
  /\ Forall (fun c => c <> 32%N) (WebScraper.auto_filename q1 t1).
Proof.
  intros Hv1 Hv2. split; [split |].
  - intros Heq.
    pose proof (auto_filename_inj q1 q2 t1 t2 Heq) as Ht.
    split; [| by apply strftime_file_inj].
    unfold WebScraper.auto_filename in Heq. rewrite Ht in Heq.
    apply app_inv_head in Heq. rewrite !app_assoc in Heq.
    apply app_inv_tail in Heq. by apply app_inv_tail in Heq.
  - intros [Hq Ht]. unfold WebScraper.auto_filename.
    by rewrite Hq, (strftime_file_to_the_second t1 t2 Ht).
  - split.
    + unfold WebScraper.auto_filename.
      by rewrite replace_idempotent by discriminate.
    + unfold WebScraper.auto_filename. change (py "_") with [95%N].
      apply Forall_app. split; [by vm_compute; repeat constructor |].
      apply Forall_app. split; [by apply replace_no_source |].
      apply Forall_cons. split; [discriminate |].
      apply strftime_file_no_space.
Qed.

Lemma auto_filename_coincides_witness :
  WebScraper.auto_filename (py "gaming laptops") Fixtures.noon
  = WebScraper.auto_filename (py "gaming_laptops") Fixtures.noon.
Proof.
  destruct (auto_filename_coincides (py "gaming laptops")
              (py "gaming_laptops") Fixtures.noon Fixtures.noon)
    as ([_ Hsame] & _).
  - unfold valid_datetime. simpl. lia.
  - unfold valid_datetime. simpl. lia.
  - apply Hsame. split; reflexivity.
Defined.


